(** * Serverless-Cron: the setter and worker Lambda handlers

    A shallow embedding of [lambda/setter/index.js] (both revisions found in
    the repository) and [lambda/worker/index.js], and the properties of the
    scheduling contract that can be read off them.

    The handlers are JavaScript [async] functions.  They are modelled as
    functions into a small monad that records the outbound calls (the
    [CreateSchedule] request sent to EventBridge Scheduler, the [fetch] of the
    webhook) and ends either with a returned value or with a thrown error.
    What the Node.js platform and the libraries supply ([JSON.parse],
    [JSON.stringify], date-fns' [parseISO] and [formatISO]) is an interface,
    [Platform]; what changes from one invocation to the next (the environment
    variables, the clock, the answers of the scheduler service and of the
    webhook) is a record, [World].

    Console output is left out, except where building the logged text can
    throw (the worker's template literal over [url]).  Time does not pass in
    the model: when the scheduler invokes the worker, and the timeout of a
    Lambda, are outside it. *)

From Stdlib Require Import ZArith Ascii String List Lia.
From stdpp Require Import base option list strings pretty gmap.

Set Warnings "-register-all".

Local Open Scope string_scope.
Local Open Scope Z_scope.

(** ** JavaScript values *)

(** The values that reach the handlers are decoded JSON.  Numbers are the
    integer-valued ones, printed in decimal; the handlers only ever test a
    number for truthiness, print it, or pass it on. *)
Inductive value : Type :=
| VUndefined
| VNull
| VBool (b : bool)
| VNum (n : Z)
| VStr (s : string)
| VArr (xs : list value)
| VObj (props : list (string * value)).

(** Error objects, as thrown and as read in the [catch] clauses
    ([error.message]). *)
Record JSError : Type := mkError { error_name : string; message : string }.

Definition Error (msg : string) : JSError := mkError "Error" msg.
Definition TypeError (msg : string) : JSError := mkError "TypeError" msg.
Definition ReferenceError (msg : string) : JSError := mkError "ReferenceError" msg.

(** The outcome of evaluating an expression: a value or a thrown error. *)
Inductive completion (A : Type) : Type :=
| Return (a : A)
| Throw (e : JSError).
Arguments Return {A} a.
Arguments Throw {A} e.

Definition completion_bind {A B} (f : A -> completion B) (c : completion A)
  : completion B :=
  match c with
  | Return a => f a
  | Throw e => Throw e
  end.

#[global] Instance completion_mret : MRet completion := @Return.
#[global] Instance completion_mbind : MBind completion := @completion_bind.

(** [!v]: the falsy values are [undefined], [null], [false], [0] and [""]. *)
Definition truthy (v : value) : bool :=
  match v with
  | VUndefined | VNull => false
  | VBool b => b
  | VNum n => negb (n =? 0)
  | VStr s => negb (String.eqb s "")
  | VArr _ | VObj _ => true
  end.

Definition falsy (v : value) : bool := negb (truthy v).

(** Own properties of an object, looked up by name. *)
Fixpoint assoc (k : string) (props : list (string * value)) : option value :=
  match props with
  | [] => None
  | (k', v) :: rest => if String.eqb k k' then Some v else assoc k rest
  end.

(** [null] and [undefined], the two values without properties. *)
Definition nullish (v : value) : bool :=
  match v with
  | VUndefined | VNull => true
  | _ => false
  end.

(** The property [k] of a value that is not nullish: the own property of an
    object, and [undefined] on everything else (none of the names the handlers
    read is a property of a prototype). *)
Definition field (v : value) (k : string) : value :=
  match v with
  | VObj props => default VUndefined (assoc k props)
  | _ => VUndefined
  end.

Definition null_or_undefined (v : value) : string :=
  match v with
  | VNull => "null"
  | _ => "undefined"
  end.

(** [v.k] *)
Definition get (v : value) (k : string) : completion value :=
  if nullish v then
    Throw (TypeError ("Cannot read properties of " +:+ null_or_undefined v
                      +:+ " (reading '" +:+ k +:+ "')"))
  else Return (field v k).

(** [const { k } = v], where [v] is the variable [name] *)
Definition destructure (v : value) (name k : string) : completion value :=
  if nullish v then
    Throw (TypeError ("Cannot destructure property '" +:+ k +:+ "' of '" +:+ name
                      +:+ "' as it is " +:+ null_or_undefined v +:+ "."))
  else Return (field v k).

(** [ToString], as applied by template literals and by [JSON.parse] to its
    argument.  An array is joined with commas ([undefined] and [null] elements
    print as nothing).  A decoded JSON object prints as ["[object Object]"]
    through the inherited [Object.prototype.toString], unless it has an own
    property named [toString], which (being data) is not callable: then the
    conversion falls through [valueOf] and throws. *)
Fixpoint ToString (v : value) : completion string :=
  match v with
  | VUndefined => Return "undefined"
  | VNull => Return "null"
  | VBool true => Return "true"
  | VBool false => Return "false"
  | VNum n => Return (pretty n)
  | VStr s => Return s
  | VArr xs =>
      (fix join (xs : list value) : completion string :=
         match xs with
         | [] => Return ""
         | x :: rest =>
             match (match x with
                    | VUndefined | VNull => Return ""
                    | _ => ToString x
                    end) with
             | Throw e => Throw e
             | Return s =>
                 match rest with
                 | [] => Return s
                 | _ :: _ =>
                     match join rest with
                     | Throw e => Throw e
                     | Return r => Return (s +:+ "," +:+ r)
                     end
                 end
             end
         end) xs
  | VObj props =>
      match assoc "toString" props with
      | Some _ => Throw (TypeError "Cannot convert object to primitive value")
      | None => Return "[object Object]"
      end
  end.

(** A text between double quotes. *)
Definition quoted (s : string) : string :=
  String "034"%char (s +:+ String "034"%char EmptyString).

(** [s.slice(0, n)] *)
Definition slice0 (n : nat) (s : string) : string := String.substring 0 n s.

(** ** Dates *)

(** A [Date] object: its time value is a number of milliseconds since the
    epoch, or [NaN] (an invalid date). *)
Inductive Date : Type :=
| InvalidDate
| DateAt (ms : Z).

(** [isNaN(d.getTime())] *)
Definition isNaN_getTime (d : Date) : bool :=
  match d with
  | InvalidDate => true
  | DateAt _ => false
  end.

(** ** The platform *)

(** The functions the handlers import or find as globals.  [JSON_parse] is
    [JSON.parse] on the text it is given (a [SyntaxError] when the text is not
    JSON); [JSON_stringify] is [JSON.stringify] on a value that is not
    [undefined] (every call site passes a string, an object literal or a
    truthy value); [parseISO] returns a [Date], possibly invalid, or throws;
    [formatISO] is called with the options
    [{ format: 'extended', representation: 'complete' }]. *)
Class Platform : Type := {
  JSON_parse : string -> completion value;
  JSON_stringify : value -> string;
  parseISO : value -> completion Date;
  formatISO : Date -> completion string;
}.

(** ** Outbound calls *)

Inductive FlexibleTimeWindowMode : Type := OFF | FLEXIBLE.
Inductive ActionAfterCompletion : Type := NONE | DELETE.

Record Target : Type := {
  Arn : string;
  RoleArn : string;
  Input : string;
}.

(** The input of [CreateScheduleCommand]. *)
Record CreateScheduleCommand : Type := {
  Name : string;
  ScheduleExpression : string;
  ScheduleExpressionTimezone : string;
  FlexibleTimeWindow_Mode : FlexibleTimeWindowMode;
  Target_ : Target;
  ActionAfterCompletion_ : ActionAfterCompletion;
  State : string;
  Description : string;
  GroupName : string;
}.

(** The second argument of [fetch]. *)
Record RequestInit : Type := {
  method : string;
  headers : list (string * string);
  request_body : string;
}.

(** What the worker reads of a [fetch] response: [status] (and [ok], which is
    [status] in 200..299) and [text()], which may reject while the body is
    being received. *)
Record FetchResponse : Type := {
  status : Z;
  text : completion string;
}.

Definition ok (r : FetchResponse) : bool :=
  (200 <=? status r) && (status r <=? 299).

Inductive Call : Type :=
| CallSend (cmd : CreateScheduleCommand)
| CallFetch (url : value) (init : RequestInit).

(** ** The world of one invocation *)

Record World : Type := {
  env : gmap string string;                              (* process.env *)
  now : Z;                                               (* Date.now() *)
  send : CreateScheduleCommand -> completion value;      (* schedulerClient.send *)
  fetch : value -> RequestInit -> completion FetchResponse;
}.

(** ** The handler monad: outbound calls made so far, and a completion *)

Definition M (A : Type) : Type := (list Call * completion A)%type.

Definition calls {A} (m : M A) : list Call := fst m.
Definition outcome {A} (m : M A) : completion A := snd m.

Definition M_ret {A} (a : A) : M A := ([], Return a).

Definition M_bind {A B} (f : A -> M B) (m : M A) : M B :=
  match m with
  | (tr, Return a) => let (tr', r) := f a in ((tr ++ tr')%list, r)
  | (tr, Throw e) => (tr, Throw e)
  end.

#[global] Instance M_mret : MRet M := @M_ret.
#[global] Instance M_mbind : MBind M := @M_bind.

(** An expression without outbound calls. *)
Definition lift {A} (c : completion A) : M A := ([], c).

Definition throw {A} (e : JSError) : M A := ([], Throw e).

(** [try { m } catch (error) { h error }] *)
Definition try_catch {A} (m : M A) (h : JSError -> M A) : M A :=
  match m with
  | (tr, Return a) => (tr, Return a)
  | (tr, Throw e) => let (tr', r) := h e in ((tr ++ tr')%list, r)
  end.

(** [await schedulerClient.send(command)] *)
Definition do_send (w : World) (cmd : CreateScheduleCommand) : M value :=
  ([CallSend cmd], send w cmd).

(** [await fetch(url, init)] *)
Definition do_fetch (w : World) (url : value) (init : RequestInit) : M FetchResponse :=
  ([CallFetch url init], fetch w url init).

(** What a handler returns to the Lambda runtime. *)
Record Response : Type := {
  statusCode : Z;
  body : string;
}.

(** [process.env.K || d] and [!process.env.K]: an environment variable is a
    string or is absent, and the empty string is falsy. *)
Definition or_default (o : option string) (d : string) : string :=
  match o with
  | Some s => if String.eqb s "" then d else s
  | None => d
  end.

Definition unset (o : option string) : bool :=
  match o with
  | Some s => String.eqb s ""
  | None => true
  end.

(** ** lambda/setter/index.js, current revision *)

Module Setter.
Section Handler.
Context `{Platform}.

(** [`oneTime-${Date.now()}`] *)
Definition scheduleName (w : World) : string := "oneTime-" +:+ pretty (now w).

(** [JSON.parse(event.body)], with the property access and the conversion
    of the argument to a string that come before the parsing. *)
Definition parse_body (event : value) : completion value :=
  b ← get event "body"; s ← ToString b; JSON_parse s.

(** [try { requestBody = JSON.parse(event.body) } catch (e) { requestBody = event }] *)
Definition requestBody (event : value) : value :=
  match parse_body event with
  | Return v => v
  | Throw _ => event
  end.

Definition missing_parameters : Response :=
  {| statusCode := 400;
     body := JSON_stringify (VStr
       "Missing required parameters in input (target_url, target_body, schedule_time_utc)") |}.

Definition error_response (error : JSError) : Response :=
  {| statusCode := 500;
     body := JSON_stringify (VStr ("Error creating schedule: " +:+ message error)) |}.

(** [lambdaInputPayload] *)
Definition lambdaInputPayload (target_url target_body : value) : value :=
  VObj [("url", target_url); ("body", target_body)].

Definition success_response (response_Name response_ScheduleArn : value) : Response :=
  {| statusCode := 200;
     body := JSON_stringify (VObj [("message", VStr "Schedule created successfully!");
                                   ("scheduleName", response_Name);
                                   ("scheduleArn", response_ScheduleArn)]) |}.

(** The input of [new CreateScheduleCommand({ ... })]. *)
Definition command (scheduleName formattedScheduleTime : string)
    (workerLambdaArn schedulerExecutionRoleArn schedulerGroupName : string)
    (target_url target_body : value) (url_text : string) : CreateScheduleCommand :=
  {| Name := scheduleName;
     ScheduleExpression := "at(" +:+ formattedScheduleTime +:+ ")";
     ScheduleExpressionTimezone := "UTC";
     FlexibleTimeWindow_Mode := OFF;
     Target_ := {| Arn := workerLambdaArn;
                   RoleArn := schedulerExecutionRoleArn;
                   Input := JSON_stringify (lambdaInputPayload target_url target_body) |};
     ActionAfterCompletion_ := DELETE;
     State := "ENABLED";
     Description := "One-time webhook call to " +:+ url_text;
     GroupName := schedulerGroupName |}.

(** The body of the second [try] block. *)
Definition create_schedule (w : World) (target_url target_body schedule_time_utc : value)
  : M Response :=
  scheduleDate ← lift (parseISO schedule_time_utc);
  if isNaN_getTime scheduleDate then
    throw (Error ("Invalid schedule_time_utc format. Please use ISO 8601, e.g., "
                  +:+ quoted "2025-12-31T23:59:59Z" +:+ " (offset also allowed)."))
  else
    formatted ← lift (formatISO scheduleDate);
    let formattedScheduleTime := slice0 19 formatted in
    let workerLambdaArn := env w !! "WORKER_LAMBDA_ARN" in
    let schedulerGroupName := or_default (env w !! "SCHEDULER_GROUP_NAME") "default" in
    let schedulerExecutionRoleArn := env w !! "SCHEDULER_EXECUTION_ROLE_ARN" in
    if unset workerLambdaArn then
      throw (Error "WORKER_LAMBDA_ARN environment variable not set. Deployment might be incomplete or misconfigured.")
    else if unset schedulerExecutionRoleArn then
      throw (Error "SCHEDULER_EXECUTION_ROLE_ARN environment variable not set. Deployment might be incomplete or misconfigured.")
    else
      let scheduleName := scheduleName w in
      url_text ← lift (ToString target_url);
      response ← do_send w (command scheduleName formattedScheduleTime
                                    (default "" workerLambdaArn)
                                    (default "" schedulerExecutionRoleArn)
                                    schedulerGroupName target_url target_body url_text);
      response_Name ← lift (get response "Name");
      response_ScheduleArn ← lift (get response "ScheduleArn");
      mret (success_response response_Name response_ScheduleArn).

(** Everything after [requestBody] has been chosen. *)
Definition schedule (w : World) (requestBody : value) : M Response :=
  target_url ← lift (destructure requestBody "requestBody" "target_url");
  target_body ← lift (destructure requestBody "requestBody" "target_body");
  schedule_time_utc ← lift (destructure requestBody "requestBody" "schedule_time_utc");
  if falsy target_url || falsy target_body || falsy schedule_time_utc then
    mret missing_parameters
  else
    try_catch (create_schedule w target_url target_body schedule_time_utc)
              (fun error => mret (error_response error)).

Definition handler (w : World) (event : value) : M Response :=
  schedule w (requestBody event).

End Handler.
End Setter.

(** ** lambda/setter/index.js, earlier revision *)

(** The earlier revision reads the request and validates it with the same
    text.  It differs after the time has been formatted: it names
    [workerLambdaArn], [schedulerExecutionRoleArn] and [schedulerGroupName]
    without binding them anywhere, so that building the command's [Target]
    throws a [ReferenceError] inside the [try] block and the code after it,
    the [send] included, is never reached. *)
Module SetterV1.
Section Handler.
Context `{Platform}.

Definition create_schedule (w : World) (target_url target_body schedule_time_utc : value)
  : M Response :=
  scheduleDate ← lift (parseISO schedule_time_utc);
  if isNaN_getTime scheduleDate then
    throw (Error ("Invalid schedule_time_utc format. Please use ISO 8601, e.g., "
                  +:+ quoted "2025-12-31T23:59:59Z" +:+ " (offset also allowed)"))
  else
    formatted ← lift (formatISO scheduleDate);
    let formattedScheduleTime := slice0 19 formatted in
    let scheduleName := Setter.scheduleName w in
    throw (ReferenceError "workerLambdaArn is not defined").

Definition schedule (w : World) (requestBody : value) : M Response :=
  target_url ← lift (destructure requestBody "requestBody" "target_url");
  target_body ← lift (destructure requestBody "requestBody" "target_body");
  schedule_time_utc ← lift (destructure requestBody "requestBody" "schedule_time_utc");
  if falsy target_url || falsy target_body || falsy schedule_time_utc then
    mret Setter.missing_parameters
  else
    try_catch (create_schedule w target_url target_body schedule_time_utc)
              (fun error => mret (Setter.error_response error)).

Definition handler (w : World) (event : value) : M Response :=
  schedule w (Setter.requestBody event).

End Handler.
End SetterV1.

(** ** lambda/worker/index.js *)

Module Worker.
Section Handler.
Context `{Platform}.

Definition missing_payload : Response :=
  {| statusCode := 400;
     body := JSON_stringify (VStr "Missing URL or body in payload") |}.

Definition error_response (error : JSError) : Response :=
  {| statusCode := 500;
     body := JSON_stringify (VStr ("Error calling webhook: " +:+ message error)) |}.

Definition success_response (response : FetchResponse) (responseData : string) : Response :=
  {| statusCode := 200;
     body := JSON_stringify (VObj [("message", VStr "Webhook called successfully");
                                   ("statusCode", VNum (status response));
                                   ("responseBody", VStr responseData)]) |}.

Definition request_headers : list (string * string) :=
  [("Content-Type", "application/json"); ("X-Scheduler-Invocation", "true")].

(** The request the worker makes for a payload [body]. *)
Definition post (body : value) : RequestInit :=
  {| method := "POST";
     headers := request_headers;
     request_body := JSON_stringify body |}.

(** The body of the [try] block.  The first line is the [console.log] whose
    template literal converts [url] to a string. *)
Definition call_webhook (w : World) (url body : value) : M Response :=
  _ ← lift (ToString url);
  response ← do_fetch w url (post body);
  if negb (ok response) then
    errorText ← lift (text response);
    throw (Error ("Webhook call failed with status " +:+ pretty (status response)
                  +:+ " and body: " +:+ errorText))
  else
    responseData ← lift (text response);
    mret (success_response response responseData).

Definition handler (w : World) (event : value) : M Response :=
  url ← lift (destructure event "event" "url");
  body ← lift (destructure event "event" "body");
  if falsy url || falsy body then
    mret missing_payload
  else
    try_catch (call_webhook w url body)
              (fun error => mret (error_response error)).

End Handler.
End Worker.

(** ** A platform to run the handlers on *)

(** The theorems below hold for every [Platform].  To evaluate the handlers
    on concrete requests the file also carries one platform.  Its JSON is
    JSON over the values above: a number is an integer literal (a literal with
    a fraction or an exponent has no value here and is refused), a string is
    a string of bytes.  Its [parseISO] reads the timestamps of the form
    [YYYY-MM-DDTHH:MM:SSZ] that the README asks for and calls every other
    string an invalid date, where date-fns knows more formats (offsets,
    fractions of a second, dates without a time); an argument that is no
    string has no [split] and throws.  Its [formatISO] formats in UTC, the
    time zone of a Lambda.  The platform is used at inputs within these
    limits only. *)
Module Node.

Definition SyntaxError (msg : string) : JSError := mkError "SyntaxError" msg.
Definition RangeError (msg : string) : JSError := mkError "RangeError" msg.

(** *** JSON.stringify *)

Definition hex_digit (n : Z) : ascii :=
  Ascii.ascii_of_N (Z.to_N (if n <? 10 then 48 + n else 87 + n)).

(** The escape of a character: the short ones, [\u00XX] for the other control
    characters, and the character itself otherwise. *)
Definition escape (c : ascii) : string :=
  let n := Z.of_N (Ascii.N_of_ascii c) in
  let backslash (e : string) := String "\"%char e in
  if n =? 34 then backslash (String "034"%char EmptyString)
  else if n =? 92 then backslash "\"
  else if n =? 8 then backslash "b"
  else if n =? 9 then backslash "t"
  else if n =? 10 then backslash "n"
  else if n =? 12 then backslash "f"
  else if n =? 13 then backslash "r"
  else if n <? 32 then
    backslash (String "u"%char (String "0"%char (String "0"%char
      (String (hex_digit (n / 16)) (String (hex_digit (n mod 16)) EmptyString)))))
  else String c EmptyString.

Fixpoint quote_chars (s : string) : string :=
  match s with
  | EmptyString => EmptyString
  | String c rest => escape c +:+ quote_chars rest
  end.

Definition quote (s : string) : string :=
  String "034"%char (quote_chars s +:+ String "034"%char EmptyString).

Fixpoint stringify (v : value) : string :=
  match v with
  | VUndefined => "undefined"
  | VNull => "null"
  | VBool true => "true"
  | VBool false => "false"
  | VNum n => pretty n
  | VStr s => quote s
  | VArr xs =>
      "[" +:+
      (fix elements (xs : list value) : string :=
         match xs with
         | [] => ""
         | x :: rest =>
             (match x with VUndefined => "null" | _ => stringify x end) +:+
             (match rest with [] => "" | _ :: _ => "," +:+ elements rest end)
         end) xs
      +:+ "]"
  | VObj props =>
      "{" +:+
      (fix members (first : bool) (props : list (string * value)) : string :=
         match props with
         | [] => ""
         | (_, VUndefined) :: rest => members first rest
         | (k, x) :: rest =>
             (if first then "" else ",") +:+ quote k +:+ ":" +:+ stringify x
             +:+ members false rest
         end) true props
      +:+ "}"
  end.

(** *** JSON.parse *)

Definition is_space (c : ascii) : bool :=
  Ascii.eqb c " "%char || Ascii.eqb c "009"%char
  || Ascii.eqb c "010"%char || Ascii.eqb c "013"%char.

Fixpoint skip_space (s : string) : string :=
  match s with
  | String c rest => if is_space c then skip_space rest else s
  | EmptyString => s
  end.

Definition digit (c : ascii) : option Z :=
  let n := Z.of_N (Ascii.N_of_ascii c) in
  if (48 <=? n) && (n <=? 57) then Some (n - 48) else None.

Fixpoint digits (acc : Z) (s : string) : Z * string :=
  match s with
  | String c rest =>
      match digit c with
      | Some d => digits (10 * acc + d) rest
      | None => (acc, s)
      end
  | EmptyString => (acc, s)
  end.

(** An integer literal: no leading zero, no fraction and no exponent. *)
Definition natural (s : string) : option (Z * string) :=
  match s with
  | String c rest =>
      match digit c with
      | Some 0 =>
          match rest with
          | String c' _ =>
              match digit c' with
              | Some _ => None
              | None => Some (0, rest)
              end
          | EmptyString => Some (0, rest)
          end
      | Some d => Some (digits d rest)
      | None => None
      end
  | EmptyString => None
  end.

Definition no_fraction (s : string) : bool :=
  match s with
  | String c _ =>
      negb (Ascii.eqb c "."%char || Ascii.eqb c "e"%char || Ascii.eqb c "E"%char)
  | EmptyString => true
  end.

Definition number (s : string) : option (Z * string) :=
  match s with
  | String "-"%char rest =>
      match natural rest with
      | Some (n, rest') => if no_fraction rest' then Some (- n, rest') else None
      | None => None
      end
  | _ =>
      match natural s with
      | Some (n, rest') => if no_fraction rest' then Some (n, rest') else None
      | None => None
      end
  end.

Definition hex_value (c : ascii) : option Z :=
  let n := Z.of_N (Ascii.N_of_ascii c) in
  if (48 <=? n) && (n <=? 57) then Some (n - 48)
  else if (97 <=? n) && (n <=? 102) then Some (n - 87)
  else if (65 <=? n) && (n <=? 70) then Some (n - 55)
  else None.

(** The character of [\uXXXX], for the code points that are one byte. *)
Definition unicode_escape (h1 h2 h3 h4 : ascii) : option ascii :=
  a ← hex_value h1; b ← hex_value h2; c ← hex_value h3; d ← hex_value h4;
  let n := ((a * 16 + b) * 16 + c) * 16 + d in
  if n <? 128 then Some (Ascii.ascii_of_N (Z.to_N n)) else None.

(** The character of a one-letter escape. *)
Definition simple_escape (e : ascii) : option ascii :=
  if Ascii.eqb e "034"%char then Some "034"%char
  else if Ascii.eqb e "\"%char then Some "\"%char
  else if Ascii.eqb e "/"%char then Some "/"%char
  else if Ascii.eqb e "b"%char then Some "008"%char
  else if Ascii.eqb e "f"%char then Some "012"%char
  else if Ascii.eqb e "n"%char then Some "010"%char
  else if Ascii.eqb e "r"%char then Some "013"%char
  else if Ascii.eqb e "t"%char then Some "009"%char
  else None.

(** The characters of a string literal, after its opening quote. *)
Fixpoint string_chars (s : string) : option (string * string) :=
  match s with
  | EmptyString => None
  | String c rest =>
      if Ascii.eqb c "034"%char then Some (EmptyString, rest)
      else if Ascii.eqb c "\"%char then
        match rest with
        | String e rest' =>
            if Ascii.eqb e "u"%char then
              match rest' with
              | String h1 (String h2 (String h3 (String h4 rest''))) =>
                  match unicode_escape h1 h2 h3 h4, string_chars rest'' with
                  | Some c', Some (str, rest3) => Some (String c' str, rest3)
                  | _, _ => None
                  end
              | _ => None
              end
            else
              match simple_escape e, string_chars rest' with
              | Some c', Some (str, rest'') => Some (String c' str, rest'')
              | _, _ => None
              end
        | EmptyString => None
        end
      else if (Ascii.N_of_ascii c <? 32)%N then None
      else
        match string_chars rest with
        | Some (str, rest') => Some (String c str, rest')
        | None => None
        end
  end.

Definition keyword (k : string) (v : value) (s : string) : option (value * string) :=
  if String.prefix k s then Some (v, String.substring (String.length k) (String.length s) s)
  else None.

(** A later member replaces an earlier one of the same name. *)
Fixpoint set_member (k : string) (v : value) (props : list (string * value))
  : list (string * value) :=
  match props with
  | [] => [(k, v)]
  | (k', v') :: rest =>
      if String.eqb k k' then (k, v) :: rest else (k', v') :: set_member k v rest
  end.

Fixpoint parse_value (fuel : nat) (s : string) : option (value * string) :=
  match fuel with
  | O => None
  | S fuel =>
      let elements :=
        fix elements (n : nat) (acc : list value) (s : string) : option (value * string) :=
          match n with
          | O => None
          | S n =>
              match parse_value fuel s with
              | Some (v, rest) =>
                  match skip_space rest with
                  | String ","%char rest' => elements n (acc ++ [v])%list rest'
                  | String "]"%char rest' => Some (VArr (acc ++ [v])%list, rest')
                  | _ => None
                  end
              | None => None
              end
          end in
      let members :=
        fix members (n : nat) (acc : list (string * value)) (s : string)
          : option (value * string) :=
          match n with
          | O => None
          | S n =>
              match skip_space s with
              | String "034"%char rest =>
                  match string_chars rest with
                  | Some (k, rest') =>
                      match skip_space rest' with
                      | String ":"%char rest'' =>
                          match parse_value fuel rest'' with
                          | Some (v, rest3) =>
                              match skip_space rest3 with
                              | String ","%char rest4 => members n (set_member k v acc) rest4
                              | String "}"%char rest4 => Some (VObj (set_member k v acc), rest4)
                              | _ => None
                              end
                          | None => None
                          end
                      | _ => None
                      end
                  | None => None
                  end
              | _ => None
              end
          end in
      match skip_space s with
      | String "n"%char _ as s' => keyword "null" VNull s'
      | String "t"%char _ as s' => keyword "true" (VBool true) s'
      | String "f"%char _ as s' => keyword "false" (VBool false) s'
      | String "034"%char rest =>
          match string_chars rest with
          | Some (str, rest') => Some (VStr str, rest')
          | None => None
          end
      | String "["%char rest =>
          match skip_space rest with
          | String "]"%char rest' => Some (VArr [], rest')
          | _ => elements fuel [] rest
          end
      | String "{"%char rest =>
          match skip_space rest with
          | String "}"%char rest' => Some (VObj [], rest')
          | _ => members fuel [] rest
          end
      | s' =>
          match number s' with
          | Some (n, rest) => Some (VNum n, rest)
          | None => None
          end
      end
  end.

Definition parse (s : string) : completion value :=
  match parse_value (S (String.length s)) s with
  | Some (v, rest) =>
      match skip_space rest with
      | EmptyString => Return v
      | _ => Throw (SyntaxError "Unexpected non-whitespace character after JSON")
      end
  | None => Throw (SyntaxError "Unexpected token in JSON")
  end.

(** *** date-fns *)

(** Days from 1970-01-01 to the civil date [y]-[m]-[d], and back. *)
Definition days_from_civil (y m d : Z) : Z :=
  let y' := if m <=? 2 then y - 1 else y in
  let era := y' / 400 in
  let yoe := y' - era * 400 in
  let doy := (153 * (if 2 <? m then m - 3 else m + 9) + 2) / 5 + d - 1 in
  let doe := yoe * 365 + yoe / 4 - yoe / 100 + doy in
  era * 146097 + doe - 719468.

Definition civil_from_days (z : Z) : Z * Z * Z :=
  let z := z + 719468 in
  let era := z / 146097 in
  let doe := z - era * 146097 in
  let yoe := (doe - doe / 1460 + doe / 36524 - doe / 146096) / 365 in
  let doy := doe - (365 * yoe + yoe / 4 - yoe / 100) in
  let mp := (5 * doy + 2) / 153 in
  let d := doy - (153 * mp + 2) / 5 + 1 in
  let m := if mp <? 10 then mp + 3 else mp - 9 in
  (yoe + era * 400 + (if m <=? 2 then 1 else 0), m, d).

Definition is_leap (y : Z) : bool :=
  ((y mod 4 =? 0) && negb (y mod 100 =? 0)) || (y mod 400 =? 0).

Definition days_in_month (y m : Z) : Z :=
  if m =? 2 then (if is_leap y then 29 else 28)
  else if (m =? 4) || (m =? 6) || (m =? 9) || (m =? 11) then 30
  else 31.

(** Exactly [n] digits. *)
Fixpoint fixed_digits (n : nat) (acc : Z) (s : string) : option (Z * string) :=
  match n with
  | O => Some (acc, s)
  | S n =>
      match s with
      | String c rest =>
          match digit c with
          | Some d => fixed_digits n (10 * acc + d) rest
          | None => None
          end
      | EmptyString => None
      end
  end.

Definition expect (c : ascii) (s : string) : option string :=
  match s with
  | String c' rest => if Ascii.eqb c c' then Some rest else None
  | EmptyString => None
  end.

Definition timestamp (s : string) : option Z :=
  '(y, s) ← fixed_digits 4 0 s; s ← expect "-"%char s;
  '(m, s) ← fixed_digits 2 0 s; s ← expect "-"%char s;
  '(d, s) ← fixed_digits 2 0 s; s ← expect "T"%char s;
  '(hh, s) ← fixed_digits 2 0 s; s ← expect ":"%char s;
  '(mm, s) ← fixed_digits 2 0 s; s ← expect ":"%char s;
  '(ss, s) ← fixed_digits 2 0 s; s ← expect "Z"%char s;
  match s with
  | EmptyString =>
      if (1 <=? m) && (m <=? 12) && (1 <=? d) && (d <=? days_in_month y m)
         && (hh <=? 23) && (mm <=? 59) && (ss <=? 59)
      then Some (((days_from_civil y m d * 24 + hh) * 60 + mm) * 60000 + ss * 1000)
      else None
  | _ => None
  end.

Definition parseISO (argument : value) : completion Date :=
  match argument with
  | VStr s =>
      match timestamp s with
      | Some ms => Return (DateAt ms)
      | None => Return InvalidDate
      end
  | VUndefined | VNull =>
      Throw (TypeError ("Cannot read properties of " +:+ null_or_undefined argument
                        +:+ " (reading 'split')"))
  | _ => Throw (TypeError "dateString.split is not a function")
  end.

Definition pad (width : nat) (n : Z) : string :=
  let s := pretty n in
  String.concat "" (repeat "0" (width - String.length s)) +:+ s.

Definition formatISO (date : Date) : completion string :=
  match date with
  | InvalidDate => Throw (RangeError "Invalid time value")
  | DateAt ms =>
      let secs := ms / 1000 in
      let days := secs / 86400 in
      let sod := secs mod 86400 in
      let '(y, m, d) := civil_from_days days in
      Return (pad 4 y +:+ "-" +:+ pad 2 m +:+ "-" +:+ pad 2 d +:+ "T" +:+
              pad 2 (sod / 3600) +:+ ":" +:+ pad 2 (sod mod 3600 / 60) +:+ ":" +:+
              pad 2 (sod mod 60) +:+ "Z")
  end.

Definition platform : Platform :=
  Build_Platform parse stringify parseISO formatISO.

End Node.


(** ** What links the two handlers *)


(** The same world with another reading of the clock. *)
Definition set_now (w : World) (clock : Z) : World :=
  {| env := env w; now := clock; send := send w; fetch := fetch w |}.

(** The status code of a completed invocation. *)
Definition status_of (m : M Response) : option Z :=
  match outcome m with
  | Return r => Some (statusCode r)
  | Throw _ => None
  end.

(** The names under which an invocation asked for schedules. *)
Definition names_sent (m : M Response) : list string :=
  omap (fun c => match c with CallSend cmd => Some (Name cmd) | CallFetch _ _ => None end)
       (calls m).

(** ** Vocabulary for the statements about the setter *)

Section Vocabulary.
Context `{Platform}.

(** The three parameters of a request that can be destructured. *)
Definition parameters (requestBody u b t : value) : Prop :=
  destructure requestBody "requestBody" "target_url" = Return u /\
  destructure requestBody "requestBody" "target_body" = Return b /\
  destructure requestBody "requestBody" "schedule_time_utc" = Return t.

(** The command the current revision sends for a request whose time was
    formatted as [formatted] and whose URL prints as [url_text]. *)
Definition command_of (w : World) (target_url target_body : value)
    (formatted url_text : string) : CreateScheduleCommand :=
  Setter.command (Setter.scheduleName w) (slice0 19 formatted)
    (default EmptyString (env w !! "WORKER_LAMBDA_ARN"))
    (default EmptyString (env w !! "SCHEDULER_EXECUTION_ROLE_ARN"))
    (or_default (env w !! "SCHEDULER_GROUP_NAME") "default")
    target_url target_body url_text.

(** What the handler makes of the scheduler's answer. *)
Definition answer (response : completion value) : completion Response :=
  r ← response; n ← get r "Name"; a ← get r "ScheduleArn";
  mret (Setter.success_response n a).

(** [try { ... } catch (error) { return 500 }] around a completion. *)
Definition or_500 (c : completion Response) : Response :=
  match c with
  | Return r => r
  | Throw e => Setter.error_response e
  end.

(** One of the three parameters is missing or falsy. *)
Definition parameter_missing (u b t : value) : bool :=
  falsy u || falsy b || falsy t.

(** The request passed every check of the [try] block that comes before the
    [send]. *)
Definition ready (w : World) (target_url schedule_time_utc : value)
    (formatted url_text : string) : Prop :=
  exists d, parseISO schedule_time_utc = Return d /\ isNaN_getTime d = false /\
            formatISO d = Return formatted /\
            unset (env w !! "WORKER_LAMBDA_ARN") = false /\
            unset (env w !! "SCHEDULER_EXECUTION_ROLE_ARN") = false /\
            ToString target_url = Return url_text.

(** What the worker makes of the result of its [fetch]. *)
Definition delivery (result : completion FetchResponse) : completion Response :=
  response ← result;
  if negb (ok response) then
    errorText ← text response;
    Throw (Error ("Webhook call failed with status " +:+ pretty (status response)
                  +:+ " and body: " +:+ errorText))
  else
    responseData ← text response;
    mret (Worker.success_response response responseData).

Definition worker_or_500 (c : completion Response) : Response :=
  match c with
  | Return r => r
  | Throw e => Worker.error_response e
  end.

End Vocabulary.

(** ** lib/scheduler-stack.ts *)

(** The CDK stack that deploys the two handlers.  What CDK resolves at
    deployment (the ARNs of the constructs, the partition, region and account
    of the stack, the URL of the Function URL) is a record of tokens; the
    constructs are records of the properties the constructor gives them. *)
Module Stack.

Record Tokens : Type := {
  workerLambda_functionArn : string;
  setterLambda_functionArn : string;
  schedulerExecutionRole_roleArn : string;
  partition : string;
  region : string;
  account : string;
  setterFunctionUrl_url : string;
}.

Inductive Runtime : Type := NODEJS_18_X | NODEJS_20_X.
Inductive FunctionUrlAuthType : Type := AWS_IAM | NONE.
Inductive HttpMethod : Type := GET | POST | ALL.

(** [new lambda.Function(...)] *)
Record Function_ : Type := {
  runtime : Runtime;
  handler : string;
  code : string;
  timeout : Z;                                  (* seconds *)
  memorySize : Z;
  environment : gmap string string;
}.

(** [new iam.PolicyStatement(...)] *)
Record PolicyStatement : Type := {
  actions : list string;
  resources : list string;
}.

(** [new iam.Role(...)] *)
Record Role : Type := {
  assumedBy : string;
  inlinePolicies : list (string * list PolicyStatement);
}.

(** [addFunctionUrl(...)] *)
Record FunctionUrl : Type := {
  authType : FunctionUrlAuthType;
  allowedOrigins : list string;
  allowedMethods : list HttpMethod;
  allowedHeaders : list string;
}.

Record CfnOutput : Type := {
  output_id : string;
  output_value : string;
  output_description : string;
}.

Record SchedulerStack : Type := {
  workerLambda : Function_;
  schedulerExecutionRole : Role;
  setterLambda : Function_;
  setterFunctionUrl : FunctionUrl;
  setterLambda_rolePolicy : list PolicyStatement;
  outputs : list CfnOutput;
}.

(** The constructor of [SchedulerStack]. *)
Definition constructor (t : Tokens) : SchedulerStack :=
  let workerLambda :=
    {| runtime := NODEJS_20_X;
       handler := "index.handler";
       code := "../lambda/worker";
       timeout := 30;
       memorySize := 128;
       environment := ∅ |} in
  let schedulerExecutionRole :=
    {| assumedBy := "scheduler.amazonaws.com";
       inlinePolicies :=
         [("InvokeLambda",
           [{| actions := ["lambda:InvokeFunction"];
               resources := [workerLambda_functionArn t] |}])] |} in
  let setterLambda :=
    {| runtime := NODEJS_20_X;
       handler := "index.handler";
       code := "../lambda/setter";
       timeout := 60;
       memorySize := 128;
       environment :=
         {[ "WORKER_LAMBDA_ARN" := workerLambda_functionArn t;
            "SCHEDULER_GROUP_NAME" := "default";
            "SCHEDULER_EXECUTION_ROLE_ARN" := schedulerExecutionRole_roleArn t ]} |} in
  {| workerLambda := workerLambda;
     schedulerExecutionRole := schedulerExecutionRole;
     setterLambda := setterLambda;
     setterFunctionUrl :=
       {| authType := NONE;
          allowedOrigins := ["*"];
          allowedMethods := [POST];
          allowedHeaders := ["Content-Type"] |};
     setterLambda_rolePolicy :=
       [{| actions := ["scheduler:CreateSchedule"; "iam:PassRole"];
           resources :=
             ["arn:" +:+ partition t +:+ ":scheduler:" +:+ region t +:+ ":" +:+ account t
              +:+ ":schedule/*";
              schedulerExecutionRole_roleArn t] |}];
     outputs :=
       [{| output_id := "WorkerLambdaArn";
           output_value := workerLambda_functionArn t;
           output_description := "ARN of the Worker Lambda function" |};
        {| output_id := "SetterLambdaArn";
           output_value := setterLambda_functionArn t;
           output_description := "ARN of the Setter Lambda function" |};
        {| output_id := "SchedulerExecutionRoleArn";
           output_value := schedulerExecutionRole_roleArn t;
           output_description :=
             "ARN of the role EventBridge Scheduler uses to invoke the Worker Lambda" |};
        {| output_id := "SetterFunctionUrl";
           output_value := setterFunctionUrl_url t;
           output_description :=
             "The HTTP Invoke URL for the Setter Lambda function (AWS_IAM authenticated)" |}] |}.

(** A statement of [statements] that grants [action] on the resource
    [resource], named in full (no wildcard is looked at). *)
Definition grants (statements : list PolicyStatement) (action resource : string) : Prop :=
  exists statement, In statement statements /\
                    In action (actions statement) /\ In resource (resources statement).

(** The statements of the inline policies of a role. *)
Definition role_statements (r : Role) : list PolicyStatement :=
  concat (map snd (inlinePolicies r)).

End Stack.

(** ** Vocabulary for the further statements *)

(** Every character of a string passes a test. *)
Fixpoint string_forallb (p : ascii -> bool) (s : string) : bool :=
  match s with
  | EmptyString => true
  | String c rest => p c && string_forallb p rest
  end.

(** The characters of a schedule name: letters, digits and the hyphen. *)
Definition name_char (c : ascii) : bool :=
  let n := Z.of_N (Ascii.N_of_ascii c) in
  ((48 <=? n) && (n <=? 57)) || ((65 <=? n) && (n <=? 90))
  || ((97 <=? n) && (n <=? 122)) || (n =? 45).

(** The two properties a worker reads off its event. *)
Definition worker_fields (event url body : value) : Prop :=
  destructure event "event" "url" = Return url /\
  destructure event "event" "body" = Return body.

(** An invocation of the setter as the stack deploys it: [process.env] holds
    the variables the stack gives the function, with the values it gives
    them, beside whatever else the Lambda runtime puts there. *)
Definition deployed (t : Stack.Tokens) (w : World) : Prop :=
  Stack.environment (Stack.setterLambda (Stack.constructor t)) ⊆ env w.

(** ** Requests and worlds to evaluate on *)

Module Scenario.

Definition environment : gmap string string :=
  {[ "WORKER_LAMBDA_ARN" := "arn:aws:lambda:eu-west-1:123456789012:function:WebhookWorker";
     "SCHEDULER_GROUP_NAME" := "default";
     "SCHEDULER_EXECUTION_ROLE_ARN" := "arn:aws:iam::123456789012:role/SchedulerExecutionRole" ]}.

(** A scheduler service that accepts every command and answers, as
    [CreateSchedule] does, with the ARN of the new schedule. *)
Definition scheduler (cmd : CreateScheduleCommand) : completion value :=
  Return (VObj [("ScheduleArn",
                 VStr ("arn:aws:scheduler:eu-west-1:123456789012:schedule/"
                       +:+ GroupName cmd +:+ "/" +:+ Name cmd))]).

(** A webhook that answers every request with the given status and text. *)
Definition webhook (status : Z) (text : completion string)
  : value -> RequestInit -> completion FetchResponse :=
  fun _ _ => Return {| status := status; text := text |}.

Definition world_with (environment : gmap string string) (clock : Z) : World :=
  {| env := environment; now := clock; send := scheduler;
     fetch := webhook 200 (Return "ok") |}.

Definition world : Z -> World := world_with environment.

Definition worker_world (fetch : value -> RequestInit -> completion FetchResponse) : World :=
  {| env := ∅; now := 1893456000000; send := scheduler; fetch := fetch |}.

(** A direct invocation: the event is the request itself. *)
Definition request (target_url target_body schedule_time_utc : value) : value :=
  VObj [("target_url", target_url); ("target_body", target_body);
        ("schedule_time_utc", schedule_time_utc)].

(** An invocation through the Function URL: the event carries the text
    that was POSTed in its [body]. *)
Definition function_url_event (text : string) : value :=
  VObj [("version", VStr "2.0"); ("rawPath", VStr "/"); ("body", VStr text);
        ("isBase64Encoded", VBool false)].

Definition hook : value := VStr "https://example.com/hook".
Definition payload : value := VObj [("a", VNum 1)].

Definition fire_at : value := VStr "2030-01-01T00:00:00Z".

(** 2025-12-31T23:59:59.000Z on the clock *)
Definition new_years_eve : Z := 1767225599000.

(** 2031-06-15T12:00:00.000Z on the clock, after [fire_at] *)
Definition too_late : Z := 1939291200000.

(** The scenario of the specification: the hook, [{ a: 1 }], 2030. *)
Definition direct : value := request hook payload fire_at.

(** The same request POSTed to the Function URL. *)
Definition posted : value := function_url_event (Node.stringify direct).

(** The command the scenario leads to when the clock reads [clock]. *)
Definition registered (clock : Z) : CreateScheduleCommand :=
  @command_of Node.platform (world clock) hook payload
    "2030-01-01T00:00:00Z" "https://example.com/hook".

(** The event of the worker in the scenario. *)
Definition worker_event : value := VObj [("url", hook); ("body", payload)].

(** An environment without the variable [k]. *)
Definition without (k : string) : gmap string string := delete k environment.

(** The tokens of a deployment with the ARNs of [environment]. *)
Definition tokens : Stack.Tokens :=
  {| Stack.workerLambda_functionArn :=
       "arn:aws:lambda:eu-west-1:123456789012:function:WebhookWorker";
     Stack.setterLambda_functionArn :=
       "arn:aws:lambda:eu-west-1:123456789012:function:SchedulerSetter";
     Stack.schedulerExecutionRole_roleArn :=
       "arn:aws:iam::123456789012:role/SchedulerExecutionRole";
     Stack.partition := "aws";
     Stack.region := "eu-west-1";
     Stack.account := "123456789012";
     Stack.setterFunctionUrl_url := "https://abcdefgh.lambda-url.eu-west-1.on.aws/" |}.

(** The environment of a deployed function: the variables of the stack and
    those of the Lambda runtime. *)
Definition lambda_environment : gmap string string :=
  <["AWS_REGION" := "eu-west-1"]>
    (<["AWS_LAMBDA_FUNCTION_NAME" := "SchedulerSetter"]> environment).

Definition lambda_world : Z -> World := world_with lambda_environment.

(** A scheduler service that is down. *)
Definition unavailable (cmd : CreateScheduleCommand) : completion value :=
  Throw (mkError "ServiceUnavailableException" "Service Unavailable").

Definition world_down (clock : Z) : World :=
  {| env := environment; now := clock; send := unavailable;
     fetch := webhook 200 (Return "ok") |}.

End Scenario.

(** * Properties *)

(** ** The monad *)

Lemma bind_lift_Return {A B} (f : A -> M B) (a : A) :
  lift (Return a) ≫= f = f a.
Proof. unfold mbind, M_mbind, M_bind, lift. destruct (f a); reflexivity. Qed.

Lemma bind_lift_Throw {A B} (f : A -> M B) (e : JSError) :
  lift (Throw e) ≫= f = throw e.
Proof. reflexivity. Qed.

Lemma try_catch_throw {A} (h : JSError -> M A) (e : JSError) :
  try_catch (throw e) h = h e.
Proof. unfold try_catch, throw. destruct (h e); reflexivity. Qed.

Lemma try_catch_Return {A} (tr : list Call) (a : A) (h : JSError -> M A) :
  try_catch (tr, Return a) h = (tr, Return a).
Proof. reflexivity. Qed.

(** A [catch] clause that returns makes the whole [try] statement return. *)
Lemma try_catch_returns {A} (m : M A) (h : JSError -> A) :
  exists a, outcome (try_catch m (fun e => mret (h e))) = Return a.
Proof. destruct m as [tr [a|e]]; simpl; eauto. Qed.

Lemma try_catch_calls {A} (m : M A) (h : JSError -> A) :
  calls (try_catch m (fun e => mret (h e))) = calls m.
Proof. destruct m as [tr [a|e]]; simpl; [reflexivity | apply app_nil_r]. Qed.

(** ** Values *)

Lemma falsy_values (v : value) :
  falsy v = true <->
  v = VUndefined \/ v = VNull \/ v = VBool false \/ v = VNum 0 \/ v = VStr EmptyString.
Proof.
  unfold falsy. split.
  - destruct v as [| |[]|n|s| |]; simpl; intros Hv; try discriminate; auto.
    + apply negb_true_iff, negb_false_iff, Z.eqb_eq in Hv. subst. auto 10.
    + apply negb_true_iff, negb_false_iff, String.eqb_eq in Hv. subst. auto 10.
  - intros [->|[->|[->|[->| ->]]]]; reflexivity.
Qed.

Lemma destructure_nullish (v : value) (name k : string) :
  nullish v = true -> exists e, destructure v name k = Throw e.
Proof. unfold destructure. intros ->. eauto. Qed.

Lemma destructure_Return (v : value) (name k : string) :
  nullish v = false -> destructure v name k = Return (field v k).
Proof. unfold destructure. intros ->. reflexivity. Qed.

Lemma destructure_Return_inv (v x : value) (name k : string) :
  destructure v name k = Return x -> nullish v = false /\ x = field v k.
Proof.
  unfold destructure. destruct (nullish v); [discriminate|].
  intros [= <-]. split; reflexivity.
Qed.

(** ** The setter *)

Section SetterFacts.
Context `{Platform}.

Lemma create_schedule_ready w u b t f s :
  ready w u t f s ->
  Setter.create_schedule w u b t =
    ([CallSend (command_of w u b f s)], answer (send w (command_of w u b f s))).
Proof.
  intros (d & Hd & Hnan & Hf & Hw & Hr & Hs).
  unfold Setter.create_schedule.
  rewrite Hd, bind_lift_Return, Hnan, Hf, bind_lift_Return, Hw, Hr, Hs, bind_lift_Return.
  fold (command_of w u b f s).
  unfold do_send, answer, mbind, M_mbind, M_bind, completion_mbind, completion_bind, lift.
  destruct (send w _) as [r|e]; simpl; [|reflexivity].
  destruct (get r "Name") as [n|e]; simpl; [|reflexivity].
  destruct (get r "ScheduleArn") as [a|e]; reflexivity.
Qed.

(** Before the [send], the [try] block makes no call: whatever it throws, it
    throws with nothing sent. *)
Lemma create_schedule_cases w u b t :
  (exists e, Setter.create_schedule w u b t = throw e) \/
  (exists f s, ready w u t f s).
Proof.
  unfold Setter.create_schedule, ready.
  destruct (parseISO t) as [d|e] eqn:Hd; [|left; eauto].
  rewrite bind_lift_Return.
  destruct (isNaN_getTime d) eqn:Hnan; [left; eauto|].
  destruct (formatISO d) as [f|e] eqn:Hf; [|left; eauto].
  rewrite bind_lift_Return.
  destruct (unset (env w !! "WORKER_LAMBDA_ARN")) eqn:Hw; [left; eauto|].
  destruct (unset (env w !! "SCHEDULER_EXECUTION_ROLE_ARN")) eqn:Hr; [left; eauto|].
  destruct (ToString u) as [s|e] eqn:Hs; [|left; eauto].
  right. exists f, s, d. auto 10.
Qed.

Lemma create_schedule_sent w u b t cmd :
  In (CallSend cmd) (calls (Setter.create_schedule w u b t)) ->
  exists f s, ready w u t f s /\ cmd = command_of w u b f s.
Proof.
  destruct (create_schedule_cases w u b t) as [[e He]|(f & s & Hready)].
  - rewrite He. intros [].
  - rewrite (create_schedule_ready _ _ _ _ _ _ Hready). simpl.
    intros [[= <-]|[]]. eauto.
Qed.

Lemma parameters_exist (requestBody : value) :
  nullish requestBody = false -> exists u b t, parameters requestBody u b t.
Proof.
  intros Hn. unfold parameters.
  rewrite !(destructure_Return _ _ _ Hn). eauto 10.
Qed.

Lemma schedule_parameters w requestBody u b t :
  parameters requestBody u b t ->
  Setter.schedule w requestBody =
    if falsy u || falsy b || falsy t then mret Setter.missing_parameters
    else try_catch (Setter.create_schedule w u b t)
                   (fun error => mret (Setter.error_response error)).
Proof.
  intros (Hu & Hb & Ht). unfold Setter.schedule.
  rewrite Hu, bind_lift_Return, Hb, bind_lift_Return, Ht, bind_lift_Return.
  reflexivity.
Qed.

Lemma schedule_nullish w requestBody :
  nullish requestBody = true -> exists e, Setter.schedule w requestBody = throw e.
Proof.
  intros Hn. destruct (destructure_nullish _ "requestBody" "target_url" Hn) as [e He].
  exists e. unfold Setter.schedule. rewrite He. reflexivity.
Qed.

Lemma schedule_sent w requestBody cmd :
  In (CallSend cmd) (calls (Setter.schedule w requestBody)) ->
  exists u b t f s,
    parameters requestBody u b t /\
    truthy u = true /\ truthy b = true /\ truthy t = true /\
    ready w u t f s /\ cmd = command_of w u b f s.
Proof.
  destruct (nullish requestBody) eqn:Hn.
  - destruct (schedule_nullish w _ Hn) as [e ->]. intros [].
  - destruct (parameters_exist _ Hn) as (u & b & t & Hp).
    rewrite (schedule_parameters w _ _ _ _ Hp).
    unfold falsy.
    destruct (truthy u) eqn:Hu; [|intros []].
    destruct (truthy b) eqn:Hb; [|intros []].
    destruct (truthy t) eqn:Ht; [|intros []].
    simpl. rewrite try_catch_calls. intros Hin.
    destruct (create_schedule_sent _ _ _ _ _ Hin) as (f & s & Hready & ->).
    exists u, b, t, f, s. auto 10.
Qed.

End SetterFacts.

(** ** Schedule names *)

Section Names.
Context `{Platform}.

Lemma scheduleName_inj (w1 w2 : World) :
  Setter.scheduleName w1 = Setter.scheduleName w2 <-> now w1 = now w2.
Proof.
  unfold Setter.scheduleName. split; [|intros ->; reflexivity].
  simpl. intros Heq. injection Heq as Heq. exact (inj pretty _ _ Heq).
Qed.

Lemma handler_sent w event cmd :
  In (CallSend cmd) (calls (Setter.handler w event)) ->
  exists u b t f s,
    parameters (Setter.requestBody event) u b t /\
    truthy u = true /\ truthy b = true /\ truthy t = true /\
    ready w u t f s /\ cmd = command_of w u b f s.
Proof. apply schedule_sent. Qed.

(** C1, as the code has it: the name under which a schedule is created is
    [oneTime-] followed by the reading of the millisecond clock, so the names
    of two schedules differ exactly when the two clock readings differ.
    Nothing else about the call enters the name. *)
Theorem schedule_names_differ_iff_clock_differs
    (w1 w2 : World) (event1 event2 : value) (cmd1 cmd2 : CreateScheduleCommand) :
  In (CallSend cmd1) (calls (Setter.handler w1 event1)) ->
  In (CallSend cmd2) (calls (Setter.handler w2 event2)) ->
  Name cmd1 = Setter.scheduleName w1 /\
  Name cmd2 = Setter.scheduleName w2 /\
  (Name cmd1 <> Name cmd2 <-> now w1 <> now w2).
Proof.
  intros H1 H2.
  destruct (handler_sent _ _ _ H1) as (u1 & b1 & t1 & f1 & s1 & _ & _ & _ & _ & _ & ->).
  destruct (handler_sent _ _ _ H2) as (u2 & b2 & t2 & f2 & s2 & _ & _ & _ & _ & _ & ->).
  change (Name (command_of w1 u1 b1 f1 s1)) with (Setter.scheduleName w1).
  change (Name (command_of w2 u2 b2 f2 s2)) with (Setter.scheduleName w2).
  pose proof (scheduleName_inj w1 w2). tauto.
Qed.

(** C6: every schedule the setter creates, in either revision, is created
    with [ActionAfterCompletion.DELETE]: the scheduler discards it once it has
    fired.  (The earlier revision never gets as far as creating one.) *)
Theorem created_schedules_are_deleted_after_completion
    (w : World) (event : value) (cmd : CreateScheduleCommand) :
  In (CallSend cmd) (calls (Setter.handler w event) ++ calls (SetterV1.handler w event)) ->
  ActionAfterCompletion_ cmd = DELETE /\ State cmd = "ENABLED" /\
  FlexibleTimeWindow_Mode cmd = OFF.
Proof.
  intros Hin. apply in_app_or in Hin as [Hin|Hin].
  - destruct (handler_sent _ _ _ Hin) as (u & b & t & f & s & _ & _ & _ & _ & _ & ->).
    repeat split.
  - exfalso. revert Hin. unfold SetterV1.handler, SetterV1.schedule.
    destruct (destructure (Setter.requestBody event) "requestBody" "target_url") as [u|e]; [|intros []].
    rewrite bind_lift_Return.
    destruct (destructure (Setter.requestBody event) "requestBody" "target_body") as [b|e]; [|intros []].
    rewrite bind_lift_Return.
    destruct (destructure (Setter.requestBody event) "requestBody" "schedule_time_utc") as [t|e]; [|intros []].
    rewrite bind_lift_Return.
    destruct (falsy u || falsy b || falsy t); [intros []|].
    rewrite try_catch_calls. unfold SetterV1.create_schedule.
    destruct (parseISO t) as [d|e]; [|intros []].
    rewrite bind_lift_Return.
    destruct (isNaN_getTime d); [intros []|].
    destruct (formatISO d) as [f|e]; intros [].
Qed.

End Names.

(** ** The responses of the setter *)

Section SetterResponses.
Context `{Platform}.

Lemma parameter_missing_false (u b t : value) :
  parameter_missing u b t = false <->
  truthy u = true /\ truthy b = true /\ truthy t = true.
Proof.
  unfold parameter_missing, falsy.
  destruct (truthy u), (truthy b), (truthy t); simpl; intuition congruence.
Qed.

(** The three ways an invocation with a destructurable request ends. *)
Lemma handler_cases w event u b t :
  parameters (Setter.requestBody event) u b t ->
  (parameter_missing u b t = true /\
   Setter.handler w event = ([], Return Setter.missing_parameters)) \/
  (parameter_missing u b t = false /\
   exists e, Setter.create_schedule w u b t = throw e /\
             Setter.handler w event = ([], Return (Setter.error_response e))) \/
  (parameter_missing u b t = false /\
   exists f s, ready w u t f s /\
               Setter.handler w event =
                 ([CallSend (command_of w u b f s)],
                  Return (or_500 (answer (send w (command_of w u b f s)))))).
Proof.
  intros Hp. unfold Setter.handler. rewrite (schedule_parameters w _ _ _ _ Hp).
  fold (parameter_missing u b t).
  destruct (parameter_missing u b t); [left; split; reflexivity|right].
  destruct (create_schedule_cases w u b t) as [[e He]|(f & s & Hready)].
  - left. split; [reflexivity|]. exists e. split; [exact He|].
    rewrite He, try_catch_throw. reflexivity.
  - right. split; [reflexivity|]. exists f, s. split; [exact Hready|].
    rewrite (create_schedule_ready _ _ _ _ _ _ Hready).
    destruct (answer _); reflexivity.
Qed.

Lemma answer_cases (response : completion value) :
  (exists r n a, response = Return r /\ get r "Name" = Return n /\
                 get r "ScheduleArn" = Return a /\
                 answer response = Return (Setter.success_response n a)) \/
  (exists e, answer response = Throw e).
Proof.
  unfold answer. destruct response as [r|e]; [|right; eauto]. simpl.
  destruct (get r "Name") as [n|e] eqn:Hn; [|right; eauto]. simpl.
  destruct (get r "ScheduleArn") as [a|e] eqn:Ha; [|right; eauto]. simpl.
  left. eauto 10.
Qed.

Lemma or_500_answer_not_400 (response : completion value) :
  statusCode (or_500 (answer response)) <> 400.
Proof.
  destruct (answer_cases response) as [(r & n & a & _ & _ & _ & Ha)|[e Ha]];
    rewrite Ha; discriminate.
Qed.

Lemma status_400_iff w event u b t :
  parameters (Setter.requestBody event) u b t ->
  status_of (Setter.handler w event) = Some 400 <-> parameter_missing u b t = true.
Proof.
  intros Hp. unfold status_of.
  destruct (handler_cases w event u b t Hp)
    as [[Hm ->]|[(Hm & e & He & ->)|(Hm & f & s & Hready & ->)]]; simpl; rewrite Hm.
  - split; reflexivity.
  - split; discriminate.
  - split; [|discriminate]. intros [= H400].
    exfalso. exact (or_500_answer_not_400 _ H400).
Qed.

(** C2, as the code has it: for a request that can be destructured (a
    decoded request body other than [null] and [undefined]), the setter
    answers 400 exactly when one of [target_url], [target_body],
    [schedule_time_utc] is missing or falsy, and then it has called nothing.
    The syntax of the URL is not looked at, and a time that [parseISO] does
    not parse is answered with 500, as is every other failure after the three
    parameters were found. *)
Theorem status_400_iff_parameter_missing
    (w : World) (event u b t : value) :
  parameters (Setter.requestBody event) u b t ->
  exists r, outcome (Setter.handler w event) = Return r /\
    (statusCode r = 400 <-> parameter_missing u b t = true) /\
    (statusCode r = 400 -> r = Setter.missing_parameters /\ calls (Setter.handler w event) = []) /\
    (parameter_missing u b t = false ->
     (parseISO t = Return InvalidDate \/ exists e, parseISO t = Throw e) ->
     statusCode r = 500 /\ calls (Setter.handler w event) = []).
Proof.
  intros Hp.
  destruct (handler_cases w event u b t Hp)
    as [[Hm ->]|[(Hm & e & He & ->)|(Hm & f & s & Hready & ->)]]; simpl.
  - eexists; split; [reflexivity|]. simpl. rewrite Hm.
    repeat split; auto; discriminate.
  - eexists; split; [reflexivity|]. simpl. rewrite Hm.
    repeat split; auto; discriminate.
  - eexists; split; [reflexivity|]. rewrite Hm.
    pose proof (or_500_answer_not_400 (send w (command_of w u b f s))) as Hs.
    split; [split; [contradiction|discriminate]|].
    split; [contradiction|].
    intros _ Hbad. exfalso.
    destruct Hready as (d & Hd & Hnan & _).
    destruct Hbad as [Hbad|[e Hbad]]; rewrite Hbad in Hd;
      [injection Hd as <-|]; discriminate.
Qed.

Lemma ready_unique w u t f s f' s' :
  ready w u t f s -> ready w u t f' s' -> f = f' /\ s = s'.
Proof.
  intros (d & Hd & _ & Hf & _ & _ & Hs) (d' & Hd' & _ & Hf' & _ & _ & Hs').
  rewrite Hd in Hd'. injection Hd' as <-.
  rewrite Hf in Hf'. rewrite Hs in Hs'. split; congruence.
Qed.

Lemma answer_Return (response : value) :
  nullish response = false ->
  answer (Return response) =
    Return (Setter.success_response (field response "Name") (field response "ScheduleArn")).
Proof. intros Hn. unfold answer, get. simpl. rewrite Hn. reflexivity. Qed.

(** The scheduler's answer, as the handler reads it. *)
Lemma answer_inv (c : completion value) :
  (exists response, c = Return response /\ nullish response = false /\
     answer c = Return (Setter.success_response (field response "Name")
                                                (field response "ScheduleArn"))) \/
  (exists e, answer c = Throw e /\
     forall response, c = Return response -> nullish response = true).
Proof.
  destruct c as [response|e].
  - destruct (nullish response) eqn:Hn.
    + right. unfold answer, get. simpl. rewrite Hn. eexists. split; [reflexivity|].
      intros response' [= <-]. exact Hn.
    + left. exists response. auto using answer_Return.
  - right. exists e. split; [reflexivity|]. discriminate.
Qed.

(** C5, as the code has it: for every request that can be destructured (a
    decoded request body other than [null] and [undefined]) the setter
    returns exactly one of three responses.  It answers 400 exactly when a
    parameter is missing or falsy, with nothing called.  It answers 200,
    with [response.Name] and [response.ScheduleArn], exactly when the request
    passed every check, the command was sent and the scheduler gave an
    answer.  It answers 500 exactly when something was thrown after the three
    parameters were found, with the message of what was thrown. *)
Theorem setter_returns_200_400_or_500
    (w : World) (event u b t : value) :
  parameters (Setter.requestBody event) u b t ->
  exists r, outcome (Setter.handler w event) = Return r /\
    (statusCode r = 400 \/ statusCode r = 200 \/ statusCode r = 500) /\
    (statusCode r = 400 <-> parameter_missing u b t = true) /\
    (statusCode r = 400 ->
     r = Setter.missing_parameters /\ calls (Setter.handler w event) = []) /\
    (statusCode r = 200 <->
     parameter_missing u b t = false /\
     exists f s response,
       ready w u t f s /\ send w (command_of w u b f s) = Return response /\
       nullish response = false) /\
    (statusCode r = 200 ->
     exists f s response,
       calls (Setter.handler w event) = [CallSend (command_of w u b f s)] /\
       send w (command_of w u b f s) = Return response /\
       r = Setter.success_response (field response "Name")
                                   (field response "ScheduleArn")) /\
    (statusCode r = 500 <->
     parameter_missing u b t = false /\
     exists e, outcome (Setter.create_schedule w u b t) = Throw e) /\
    (forall e, parameter_missing u b t = false ->
       outcome (Setter.create_schedule w u b t) = Throw e ->
       r = Setter.error_response e).
Proof.
  intros Hp.
  destruct (handler_cases w event u b t Hp)
    as [[Hm ->]|[(Hm & e & He & ->)|(Hm & f & s & Hready & ->)]].
  - exists Setter.missing_parameters. split; [reflexivity|]. rewrite Hm. simpl.
    split; [auto|]. split; [split; reflexivity|]. split; [auto|].
    split; [split; [discriminate|intros [[=] _]]|].
    split; [discriminate|].
    split; [split; [discriminate|intros [[=] _]]|]. discriminate.
  - exists (Setter.error_response e). split; [reflexivity|]. rewrite Hm. simpl.
    split; [auto|]. split; [split; discriminate|]. split; [discriminate|].
    split; [split; [discriminate|]|].
    { intros (_ & f & s & response & Hready & _).
      rewrite (create_schedule_ready _ _ _ _ _ _ Hready) in He. discriminate. }
    split; [discriminate|].
    split; [split; [intros _; split; [reflexivity|]|reflexivity]|].
    { exists e. rewrite He. reflexivity. }
    intros e' _. rewrite He. intros [= <-]. reflexivity.
  - pose proof (create_schedule_ready _ u b t _ _ Hready) as Hrun.
    destruct (answer_inv (send w (command_of w u b f s)))
      as [(response & Hsend & Hn & Ha)|(e & Ha & Hnull)].
    + eexists. split; [reflexivity|]. rewrite Ha, Hm. simpl.
      split; [auto|]. split; [split; discriminate|]. split; [discriminate|].
      split; [split; [intros _; split; [reflexivity|]|reflexivity]|].
      { exists f, s, response. auto. }
      split; [intros _; exists f, s, response; auto|].
      split; [split; [discriminate|]|].
      { intros (_ & e & He). rewrite Hrun in He. simpl in He.
        rewrite Ha in He. discriminate. }
      intros e _ He. rewrite Hrun in He. simpl in He. rewrite Ha in He. discriminate.
    + exists (Setter.error_response e). split; [simpl; rewrite Ha; reflexivity|].
      rewrite Hm. simpl.
      split; [auto|]. split; [split; discriminate|]. split; [discriminate|].
      split; [split; [discriminate|]|].
      { intros (_ & f' & s' & response & Hready' & Hsend & Hn).
        destruct (ready_unique _ _ _ _ _ _ _ Hready Hready') as [<- <-].
        rewrite (Hnull _ Hsend) in Hn. discriminate. }
      split; [discriminate|].
      split; [split; [intros _; split; [reflexivity|]|reflexivity]|].
      { exists e. rewrite Hrun. exact Ha. }
      intros e' _ He. rewrite Hrun in He. simpl in He. rewrite Ha in He.
      injection He as <-. reflexivity.
Qed.

End SetterResponses.

(** ** Fire times, payloads and the environment *)

Section SetterRequests.
Context `{Platform}.

Lemma handler_ready w event u b t f s :
  parameters (Setter.requestBody event) u b t ->
  parameter_missing u b t = false ->
  ready w u t f s ->
  Setter.handler w event =
    ([CallSend (command_of w u b f s)],
     Return (or_500 (answer (send w (command_of w u b f s))))).
Proof.
  intros Hp Hm Hready. unfold Setter.handler.
  rewrite (schedule_parameters w _ _ _ _ Hp).
  fold (parameter_missing u b t). rewrite Hm.
  rewrite (create_schedule_ready _ _ _ _ _ _ Hready).
  destruct (answer _); reflexivity.
Qed.

(** C7: a request whose time parses to an instant [ms] is sent to the
    scheduler whatever the clock reads, before [ms], at [ms] or after it: the
    command asks for [at(...)] with the formatted instant, the clock enters
    only its name, and the response is the one the scheduler's answer
    gives, never the 400 of a rejected request. *)
Theorem past_fire_time_is_scheduled
    (w : World) (event u b t : value) (ms : Z) (formatted url_text : string) (clock : Z) :
  parameters (Setter.requestBody event) u b t ->
  parameter_missing u b t = false ->
  parseISO t = Return (DateAt ms) ->
  formatISO (DateAt ms) = Return formatted ->
  unset (env w !! "WORKER_LAMBDA_ARN") = false ->
  unset (env w !! "SCHEDULER_EXECUTION_ROLE_ARN") = false ->
  ToString u = Return url_text ->
  let cmd := command_of (set_now w clock) u b formatted url_text in
  calls (Setter.handler (set_now w clock) event) = [CallSend cmd] /\
  ScheduleExpression cmd = "at(" +:+ slice0 19 formatted +:+ ")" /\
  Name cmd = "oneTime-" +:+ pretty clock /\
  outcome (Setter.handler (set_now w clock) event) = Return (or_500 (answer (send w cmd))) /\
  status_of (Setter.handler (set_now w clock) event) <> Some 400 /\
  (forall response n a,
     send w cmd = Return response ->
     get response "Name" = Return n -> get response "ScheduleArn" = Return a ->
     outcome (Setter.handler (set_now w clock) event) = Return (Setter.success_response n a)).
Proof.
  intros Hp Hm Hd Hf Hw Hr Hs cmd.
  assert (Hready : ready (set_now w clock) u t formatted url_text)
    by (exists (DateAt ms); auto 10).
  rewrite (handler_ready _ _ _ _ _ _ _ Hp Hm Hready). fold cmd.
  change (send (set_now w clock) cmd) with (send w cmd).
  unfold status_of. simpl.
  split; [reflexivity|]. split; [reflexivity|]. split; [reflexivity|].
  split; [reflexivity|]. split.
  - destruct (answer_cases (send w cmd)) as [(r & n & a & _ & _ & _ & Ha)|[e Ha]];
      rewrite Ha; discriminate.
  - intros response n a Hsend Hn Ha. unfold answer. rewrite Hsend. simpl.
    rewrite Hn. simpl. rewrite Ha. reflexivity.
Qed.

(** C8, as the code has it: with [target_url] and [schedule_time_utc]
    present, the request is answered 400 as missing a parameter exactly when
    [target_body] is [undefined], [null], [false], [0] or the empty string;
    every other [target_body] passes the check and is forwarded as it is in
    the command's [Target.Input]. *)
Theorem target_body_is_missing_iff_falsy
    (w : World) (event u b t : value) :
  parameters (Setter.requestBody event) u b t ->
  truthy u = true -> truthy t = true ->
  (status_of (Setter.handler w event) = Some 400 <->
   b = VUndefined \/ b = VNull \/ b = VBool false \/ b = VNum 0 \/ b = VStr EmptyString) /\
  (forall cmd, In (CallSend cmd) (calls (Setter.handler w event)) ->
     Input (Target_ cmd) = JSON_stringify (VObj [("url", u); ("body", b)])).
Proof.
  intros Hp Hu Ht. rewrite <- falsy_values.
  assert (Hm : parameter_missing u b t = falsy b)
    by (unfold parameter_missing, falsy; rewrite Hu, Ht; simpl; apply orb_false_r).
  split.
  - rewrite <- Hm. apply status_400_iff. exact Hp.
  - intros cmd Hin.
    destruct (handler_sent _ _ _ Hin) as (u' & b' & t' & f & s & Hp' & _ & _ & _ & _ & ->).
    destruct Hp as (Hu1 & Hb1 & _), Hp' as (Hu2 & Hb2 & _).
    rewrite Hu1 in Hu2. rewrite Hb1 in Hb2.
    injection Hu2 as <-. injection Hb2 as <-. reflexivity.
Qed.

(** C9: for a request with its three parameters, a [WORKER_LAMBDA_ARN] or
    [SCHEDULER_EXECUTION_ROLE_ARN] that is absent (or empty) is fatal: the
    response is a 500 and nothing is sent; when the time of the request
    parses, the error is the one that names the variable.  An absent (or
    empty) [SCHEDULER_GROUP_NAME] raises nothing: the command is sent with
    the group name [default]. *)
Theorem missing_environment_variables
    (w : World) (event u b t : value) :
  parameters (Setter.requestBody event) u b t ->
  parameter_missing u b t = false ->
  (unset (env w !! "WORKER_LAMBDA_ARN") = true \/
   unset (env w !! "SCHEDULER_EXECUTION_ROLE_ARN") = true ->
   status_of (Setter.handler w event) = Some 500 /\
   calls (Setter.handler w event) = []) /\
  (forall d formatted,
     parseISO t = Return d -> isNaN_getTime d = false ->
     formatISO d = Return formatted ->
     (unset (env w !! "WORKER_LAMBDA_ARN") = true ->
      Setter.handler w event =
        ([], Return (Setter.error_response (Error
           "WORKER_LAMBDA_ARN environment variable not set. Deployment might be incomplete or misconfigured.")))) /\
     (unset (env w !! "WORKER_LAMBDA_ARN") = false ->
      unset (env w !! "SCHEDULER_EXECUTION_ROLE_ARN") = true ->
      Setter.handler w event =
        ([], Return (Setter.error_response (Error
           "SCHEDULER_EXECUTION_ROLE_ARN environment variable not set. Deployment might be incomplete or misconfigured.")))) /\
     (unset (env w !! "WORKER_LAMBDA_ARN") = false ->
      unset (env w !! "SCHEDULER_EXECUTION_ROLE_ARN") = false ->
      unset (env w !! "SCHEDULER_GROUP_NAME") = true ->
      forall url_text, ToString u = Return url_text ->
        let cmd := command_of w u b formatted url_text in
        GroupName cmd = "default" /\
        Setter.handler w event = ([CallSend cmd], Return (or_500 (answer (send w cmd)))))).
Proof.
  intros Hp Hm. split.
  - intros Hunset.
    destruct (handler_cases w event u b t Hp)
      as [[Hm' _]|[(_ & e & _ & ->)|(_ & f & s & Hready & _)]].
    + rewrite Hm in Hm'. discriminate.
    + split; reflexivity.
    + exfalso. destruct Hready as (d & _ & _ & _ & Hw & Hr & _).
      destruct Hunset as [Hu|Hu]; congruence.
  - intros d formatted Hd Hnan Hf.
    assert (Hrun : Setter.handler w event =
                   try_catch (Setter.create_schedule w u b t)
                             (fun error => mret (Setter.error_response error))).
    { unfold Setter.handler. rewrite (schedule_parameters w _ _ _ _ Hp).
      fold (parameter_missing u b t). rewrite Hm. reflexivity. }
    split; [|split].
    + intros Hw. rewrite Hrun. unfold Setter.create_schedule.
      rewrite Hd, bind_lift_Return, Hnan, Hf, bind_lift_Return, Hw, try_catch_throw.
      reflexivity.
    + intros Hw Hr. rewrite Hrun. unfold Setter.create_schedule.
      rewrite Hd, bind_lift_Return, Hnan, Hf, bind_lift_Return, Hw, Hr, try_catch_throw.
      reflexivity.
    + intros Hw Hr Hg url_text Hs cmd. split.
      * unfold cmd, command_of, Setter.command. simpl.
        revert Hg. unfold unset, or_default.
        destruct (env w !! "SCHEDULER_GROUP_NAME") as [g|]; [|reflexivity].
        intros ->. reflexivity.
      * apply (handler_ready w event u b t formatted url_text Hp Hm).
        exists d. auto 10.
Qed.

End SetterRequests.

(** ** The worker *)

Section WorkerFacts.
Context `{Platform}.

Lemma call_webhook_cases w url body :
  (exists e, ToString url = Throw e /\ Worker.call_webhook w url body = throw e) \/
  (exists s, ToString url = Return s /\
             Worker.call_webhook w url body =
               ([CallFetch url (Worker.post body)],
                delivery (fetch w url (Worker.post body)))).
Proof.
  unfold Worker.call_webhook.
  destruct (ToString url) as [s|e]; [right; exists s|left; exists e];
    (split; [reflexivity|]); [|reflexivity].
  rewrite bind_lift_Return.
  unfold do_fetch, delivery, mbind, M_mbind, M_bind, completion_mbind, completion_bind, lift.
  destruct (fetch w url (Worker.post body)) as [response|e]; [|reflexivity].
  simpl. destruct (negb (ok response)); destruct (text response); reflexivity.
Qed.

Lemma worker_handler_fields w event url body :
  destructure event "event" "url" = Return url ->
  destructure event "event" "body" = Return body ->
  Worker.handler w event =
    if falsy url || falsy body then mret Worker.missing_payload
    else try_catch (Worker.call_webhook w url body)
                   (fun error => mret (Worker.error_response error)).
Proof.
  intros Hu Hb. unfold Worker.handler.
  rewrite Hu, bind_lift_Return, Hb, bind_lift_Return. reflexivity.
Qed.

(** An invocation that got as far as the [fetch]. *)
Lemma worker_fetched w event url init :
  In (CallFetch url init) (calls (Worker.handler w event)) ->
  exists body, init = Worker.post body /\
    Worker.handler w event =
      ([CallFetch url (Worker.post body)],
       Return (worker_or_500 (delivery (fetch w url (Worker.post body))))).
Proof.
  unfold Worker.handler at 1.
  destruct (destructure event "event" "url") as [url'|e] eqn:Hu; [|intros []].
  rewrite bind_lift_Return.
  destruct (destructure event "event" "body") as [body|e] eqn:Hb; [|intros []].
  rewrite bind_lift_Return.
  rewrite (worker_handler_fields w event url' body Hu Hb).
  destruct (falsy url' || falsy body); [intros []|].
  rewrite try_catch_calls.
  destruct (call_webhook_cases w url' body) as [(e & _ & ->)|(s & _ & ->)]; [intros []|].
  simpl. intros [[= <- <-]|[]]. exists body. split; [reflexivity|].
  destruct (delivery _); reflexivity.
Qed.

Lemma delivery_cases (result : completion FetchResponse) :
  (exists response data, result = Return response /\ ok response = true /\
                         text response = Return data /\
                         delivery result = Return (Worker.success_response response data)) \/
  (exists e, delivery result = Throw e /\
             (result = Throw e \/
              exists response, result = Return response /\
                (ok response = false \/ text response = Throw e))).
Proof.
  unfold delivery. destruct result as [response|e]; [|right; eauto]. simpl.
  destruct (ok response) eqn:Hok; simpl.
  - destruct (text response) as [data|e] eqn:Ht; simpl.
    + left. eauto 10.
    + right. exists e. eauto 10.
  - destruct (text response) as [errorText|e]; simpl; right; eauto 10.
Qed.

(** C4: once the worker has made its request, it returns, whatever happens
    to the request: 500 with the error's message when [fetch] rejects, when
    the response is not 2xx (whatever its content), or when the content cannot
    be read, and 200 in the one remaining case.  No error leaves the
    handler. *)
Theorem failed_delivery_is_answered_500
    (w : World) (event url : value) (init : RequestInit) :
  In (CallFetch url init) (calls (Worker.handler w event)) ->
  exists r, outcome (Worker.handler w event) = Return r /\
    (forall e, fetch w url init = Throw e -> r = Worker.error_response e) /\
    (forall response, fetch w url init = Return response -> ok response = false ->
       statusCode r = 500 /\ exists e, r = Worker.error_response e) /\
    (forall response e, fetch w url init = Return response -> text response = Throw e ->
       r = Worker.error_response e) /\
    (statusCode r = 500 \/
     statusCode r = 200 /\
     exists response data, fetch w url init = Return response /\ ok response = true /\
                           text response = Return data).
Proof.
  intros Hin. destruct (worker_fetched _ _ _ _ Hin) as (body & -> & ->).
  eexists; split; [reflexivity|].
  set (result := fetch w url (Worker.post body)).
  split; [|split; [|split]].
  - intros e ->. reflexivity.
  - intros response -> Hok. unfold delivery. simpl. rewrite Hok. simpl.
    destruct (text response); simpl; eauto.
  - intros response e -> Ht. unfold delivery. simpl. rewrite Ht.
    destruct (negb (ok response)); reflexivity.
  - destruct (delivery_cases result) as [(response & data & Hr & Hok & Ht & ->)|[e [-> _]]].
    + right. split; [reflexivity|]. eauto.
    + left. reflexivity.
Qed.


End WorkerFacts.

(** ** The scenario, evaluated *)

#[local] Existing Instance Node.platform.

Lemma scenario_parameters :
  parameters (Setter.requestBody Scenario.posted)
             Scenario.hook Scenario.payload Scenario.fire_at.
Proof. repeat split. Qed.

Lemma scenario_direct_parameters :
  parameters (Setter.requestBody Scenario.direct)
             Scenario.hook Scenario.payload Scenario.fire_at.
Proof. repeat split. Qed.

(** Two invocations one millisecond apart ask for two different names. *)
Lemma names_differ_one_millisecond_apart :
  In (CallSend (Scenario.registered Scenario.new_years_eve))
     (calls (Setter.handler (Scenario.world Scenario.new_years_eve) Scenario.direct)) /\
  In (CallSend (Scenario.registered (Scenario.new_years_eve + 1)))
     (calls (Setter.handler (Scenario.world (Scenario.new_years_eve + 1)) Scenario.posted)) /\
  Name (Scenario.registered Scenario.new_years_eve)
    <> Name (Scenario.registered (Scenario.new_years_eve + 1)).
Proof.
  assert (H1 : In (CallSend (Scenario.registered Scenario.new_years_eve))
                  (calls (Setter.handler (Scenario.world Scenario.new_years_eve)
                                         Scenario.direct)))
    by (vm_compute; left; reflexivity).
  assert (H2 : In (CallSend (Scenario.registered (Scenario.new_years_eve + 1)))
                  (calls (Setter.handler (Scenario.world (Scenario.new_years_eve + 1))
                                         Scenario.posted)))
    by (vm_compute; left; reflexivity).
  split; [exact H1|]. split; [exact H2|].
  destruct (schedule_names_differ_iff_clock_differs _ _ _ _ _ _ H1 H2) as (_ & _ & Hiff).
  apply Hiff. simpl. unfold Scenario.new_years_eve. lia.
Defined.

(** Against C1 as stated: two invocations that read the same millisecond off
    the clock, for two different requests, both complete with 200 and both
    asked for the same schedule name. *)
Lemma same_millisecond_same_schedule_name :
  Scenario.direct <>
    Scenario.request (VStr "https://example.org/other") (VObj [("b", VNum 2)])
                     (VStr "2031-06-15T12:00:00Z") /\
  names_sent (Setter.handler (Scenario.world Scenario.new_years_eve) Scenario.direct)
    = ["oneTime-1767225599000"] /\
  names_sent (Setter.handler (Scenario.world Scenario.new_years_eve)
                (Scenario.request (VStr "https://example.org/other") (VObj [("b", VNum 2)])
                                  (VStr "2031-06-15T12:00:00Z")))
    = ["oneTime-1767225599000"] /\
  status_of (Setter.handler (Scenario.world Scenario.new_years_eve) Scenario.direct)
    = Some 200 /\
  status_of (Setter.handler (Scenario.world Scenario.new_years_eve)
               (Scenario.request (VStr "https://example.org/other") (VObj [("b", VNum 2)])
                                 (VStr "2031-06-15T12:00:00Z")))
    = Some 200 /\
  outcome (Setter.handler (Scenario.world Scenario.new_years_eve) Scenario.direct)
    = outcome (Setter.handler (Scenario.world Scenario.new_years_eve)
                 (Scenario.request (VStr "https://example.org/other") (VObj [("b", VNum 2)])
                                   (VStr "2031-06-15T12:00:00Z"))).
Proof. split; [discriminate|]. repeat split. Qed.

(** The schedule of the scenario is created with [DELETE]. *)
Lemma scenario_schedule_is_deleted_after_completion :
  In (CallSend (Scenario.registered Scenario.new_years_eve))
     (calls (Setter.handler (Scenario.world Scenario.new_years_eve) Scenario.posted)
      ++ calls (SetterV1.handler (Scenario.world Scenario.new_years_eve) Scenario.posted)) /\
  ActionAfterCompletion_ (Scenario.registered Scenario.new_years_eve) = DELETE.
Proof.
  assert (Hin : In (CallSend (Scenario.registered Scenario.new_years_eve))
     (calls (Setter.handler (Scenario.world Scenario.new_years_eve) Scenario.posted)
      ++ calls (SetterV1.handler (Scenario.world Scenario.new_years_eve) Scenario.posted)))
    by (vm_compute; left; reflexivity).
  split; [exact Hin|].
  exact (proj1 (created_schedules_are_deleted_after_completion _ _ _ Hin)).
Defined.

(** A time that is no ISO 8601 text: three parameters, 500. *)
Lemma unparseable_time_in_the_scenario :
  parameters (Setter.requestBody
                (Scenario.request Scenario.hook Scenario.payload (VStr "tomorrow at noon")))
             Scenario.hook Scenario.payload (VStr "tomorrow at noon") /\
  parameter_missing Scenario.hook Scenario.payload (VStr "tomorrow at noon") = false /\
  status_of (Setter.handler (Scenario.world Scenario.new_years_eve)
               (Scenario.request Scenario.hook Scenario.payload (VStr "tomorrow at noon")))
    = Some 500.
Proof.
  assert (Hp : parameters (Setter.requestBody
                (Scenario.request Scenario.hook Scenario.payload (VStr "tomorrow at noon")))
             Scenario.hook Scenario.payload (VStr "tomorrow at noon"))
    by (repeat split).
  split; [exact Hp|]. split; [reflexivity|].
  destruct (status_400_iff_parameter_missing (Scenario.world Scenario.new_years_eve) _ _ _ _ Hp)
    as (r & Hr & _ & _ & H500).
  unfold status_of. rewrite Hr. f_equal.
  apply H500; [reflexivity|left; reflexivity].
Defined.

(** Against C2 as stated: a time that does not parse is answered with 500,
    not 400, and a [target_url] that is no URL is accepted with 200. *)
Lemma malformed_input_is_not_answered_400 :
  parseISO (VStr "tomorrow at noon") = Return InvalidDate /\
  Setter.handler (Scenario.world Scenario.new_years_eve)
    (Scenario.request Scenario.hook Scenario.payload (VStr "tomorrow at noon"))
  = ([], Return (Setter.error_response (Error
       ("Invalid schedule_time_utc format. Please use ISO 8601, e.g., "
        +:+ quoted "2025-12-31T23:59:59Z" +:+ " (offset also allowed).")))) /\
  status_of (Setter.handler (Scenario.world Scenario.new_years_eve)
    (Scenario.request Scenario.hook Scenario.payload (VStr "tomorrow at noon")))
  = Some 500 /\
  status_of (Setter.handler (Scenario.world Scenario.new_years_eve)
    (Scenario.request (VStr "not a url") Scenario.payload Scenario.fire_at))
  = Some 200.
Proof. repeat split. Qed.

Lemma scenario_ready :
  ready (Scenario.world Scenario.new_years_eve) Scenario.hook Scenario.fire_at
        "2030-01-01T00:00:00Z" "https://example.com/hook".
Proof. exists (DateAt 1893456000000). repeat split. Qed.

(** The scenario passes every check and the scheduler answers: 200. *)
Lemma scenario_returns_200 :
  parameters (Setter.requestBody Scenario.posted)
             Scenario.hook Scenario.payload Scenario.fire_at /\
  parameter_missing Scenario.hook Scenario.payload Scenario.fire_at = false /\
  status_of (Setter.handler (Scenario.world Scenario.new_years_eve) Scenario.posted)
    = Some 200.
Proof.
  split; [exact scenario_parameters|]. split; [reflexivity|].
  destruct (setter_returns_200_400_or_500 (Scenario.world Scenario.new_years_eve)
              Scenario.posted _ _ _ scenario_parameters)
    as (r & Hr & _ & _ & _ & H200 & _).
  unfold status_of. rewrite Hr. f_equal. apply H200.
  split; [reflexivity|].
  exists "2030-01-01T00:00:00Z", "https://example.com/hook".
  eexists. split; [exact scenario_ready|]. split; reflexivity.
Defined.

(** Against C5 as stated: the text [null] is JSON, so the parse succeeds, and
    destructuring its value throws outside both [try] blocks: the invocation
    ends with a [TypeError] and no response.  And a malformed time is an
    input answered with 500. *)
Lemma null_body_ends_without_response :
  Setter.parse_body (Scenario.function_url_event "null") = Return VNull /\
  Setter.handler (Scenario.world Scenario.new_years_eve) (Scenario.function_url_event "null")
  = ([], Throw (TypeError "Cannot destructure property 'target_url' of 'requestBody' as it is null.")) /\
  status_of (Setter.handler (Scenario.world Scenario.new_years_eve)
               (Scenario.function_url_event "null")) = None /\
  status_of (Setter.handler (Scenario.world Scenario.new_years_eve)
               (Scenario.request Scenario.hook Scenario.payload (VStr "2030-02-30T00:00:00Z")))
  = Some 500.
Proof. repeat split. Qed.

(** The scenario with the clock past the fire time. *)
Lemma scenario_in_the_past_is_scheduled :
  1893456000000 < Scenario.too_late /\
  parseISO Scenario.fire_at = Return (DateAt 1893456000000) /\
  calls (Setter.handler (set_now (Scenario.world 0) Scenario.too_late) Scenario.posted)
    = [CallSend (Scenario.registered Scenario.too_late)] /\
  ScheduleExpression (Scenario.registered Scenario.too_late) = "at(2030-01-01T00:00:00)" /\
  status_of (Setter.handler (set_now (Scenario.world 0) Scenario.too_late) Scenario.posted)
    <> Some 400.
Proof.
  split; [reflexivity|]. split; [reflexivity|].
  destruct (past_fire_time_is_scheduled (Scenario.world 0) Scenario.posted
              Scenario.hook Scenario.payload Scenario.fire_at 1893456000000
              "2030-01-01T00:00:00Z" "https://example.com/hook" Scenario.too_late
              scenario_parameters eq_refl eq_refl eq_refl eq_refl eq_refl eq_refl)
    as (Hcalls & Hexpr & _ & _ & Hstatus & _).
  split; [exact Hcalls|]. split; [exact Hexpr|]. exact Hstatus.
Defined.

(** The payload of the scenario is an object: it passes the check. *)
Lemma scenario_payload_is_present :
  truthy Scenario.hook = true /\ truthy Scenario.fire_at = true /\
  status_of (Setter.handler (Scenario.world Scenario.new_years_eve) Scenario.posted)
    <> Some 400.
Proof.
  split; [reflexivity|]. split; [reflexivity|].
  destruct (target_body_is_missing_iff_falsy (Scenario.world Scenario.new_years_eve)
              Scenario.posted _ _ _ scenario_parameters eq_refl eq_refl) as [Hiff _].
  intros H400. apply Hiff in H400.
  destruct H400 as [H0|[H0|[H0|[H0|H0]]]]; discriminate H0.
Defined.

(** Against C8 as stated: with the URL and the time of the scenario, each of
    the JSON values [0], [""], [false] and [null] as [target_body] is answered
    with the 400 of a missing parameter. *)
Lemma falsy_target_body_is_answered_400 :
  Setter.handler (Scenario.world Scenario.new_years_eve)
    (Scenario.request Scenario.hook (VNum 0) Scenario.fire_at)
  = ([], Return Setter.missing_parameters) /\
  Setter.handler (Scenario.world Scenario.new_years_eve)
    (Scenario.request Scenario.hook (VStr EmptyString) Scenario.fire_at)
  = ([], Return Setter.missing_parameters) /\
  Setter.handler (Scenario.world Scenario.new_years_eve)
    (Scenario.request Scenario.hook (VBool false) Scenario.fire_at)
  = ([], Return Setter.missing_parameters) /\
  Setter.handler (Scenario.world Scenario.new_years_eve)
    (Scenario.request Scenario.hook VNull Scenario.fire_at)
  = ([], Return Setter.missing_parameters) /\
  statusCode Setter.missing_parameters = 400.
Proof. repeat split. Qed.

(** The scenario in three deployments, each short of one variable. *)
Lemma scenario_without_each_variable :
  parameter_missing Scenario.hook Scenario.payload Scenario.fire_at = false /\
  unset (Scenario.without "WORKER_LAMBDA_ARN" !! "WORKER_LAMBDA_ARN") = true /\
  Setter.handler (Scenario.world_with (Scenario.without "WORKER_LAMBDA_ARN") 0)
                 Scenario.posted
  = ([], Return (Setter.error_response (Error
       "WORKER_LAMBDA_ARN environment variable not set. Deployment might be incomplete or misconfigured."))) /\
  unset (Scenario.without "SCHEDULER_EXECUTION_ROLE_ARN" !! "SCHEDULER_EXECUTION_ROLE_ARN")
    = true /\
  status_of (Setter.handler
               (Scenario.world_with (Scenario.without "SCHEDULER_EXECUTION_ROLE_ARN") 0)
               Scenario.posted) = Some 500 /\
  unset (Scenario.without "SCHEDULER_GROUP_NAME" !! "SCHEDULER_GROUP_NAME") = true /\
  omap (fun c => match c with CallSend cmd => Some (GroupName cmd) | _ => None end)
       (calls (Setter.handler
                 (Scenario.world_with (Scenario.without "SCHEDULER_GROUP_NAME") 0)
                 Scenario.posted)) = ["default"] /\
  status_of (Setter.handler
               (Scenario.world_with (Scenario.without "SCHEDULER_GROUP_NAME") 0)
               Scenario.posted) = Some 200.
Proof.
  pose proof (fun w => missing_environment_variables w Scenario.posted
                Scenario.hook Scenario.payload Scenario.fire_at
                scenario_parameters eq_refl) as Hthm.
  destruct (Hthm (Scenario.world_with (Scenario.without "WORKER_LAMBDA_ARN") 0))
    as (_ & Hworker).
  destruct (Hworker (DateAt 1893456000000) "2030-01-01T00:00:00Z" eq_refl eq_refl eq_refl)
    as (Hworker' & _ & _).
  destruct (Hthm (Scenario.world_with (Scenario.without "SCHEDULER_EXECUTION_ROLE_ARN") 0))
    as (Hrole & _).
  destruct (Hthm (Scenario.world_with (Scenario.without "SCHEDULER_GROUP_NAME") 0))
    as (_ & Hgroup).
  destruct (Hgroup (DateAt 1893456000000) "2030-01-01T00:00:00Z" eq_refl eq_refl eq_refl)
    as (_ & _ & Hgroup').
  split; [reflexivity|].
  split; [reflexivity|]. split; [exact (Hworker' eq_refl)|].
  split; [reflexivity|]. split; [exact (proj1 (Hrole (or_intror eq_refl)))|].
  split; [reflexivity|].
  destruct (Hgroup' eq_refl eq_refl eq_refl "https://example.com/hook" eq_refl)
    as [_ Hrun].
  rewrite Hrun. split; reflexivity.
Defined.


(** The webhook of the scenario answering 503. *)
Lemma scenario_503_is_answered_500 :
  In (CallFetch Scenario.hook (Worker.post Scenario.payload))
     (calls (Worker.handler (Scenario.worker_world (Scenario.webhook 503 (Return "busy")))
                            Scenario.worker_event)) /\
  status_of (Worker.handler (Scenario.worker_world (Scenario.webhook 503 (Return "busy")))
                            Scenario.worker_event) = Some 500.
Proof.
  assert (Hin : In (CallFetch Scenario.hook (Worker.post Scenario.payload))
     (calls (Worker.handler (Scenario.worker_world (Scenario.webhook 503 (Return "busy")))
                            Scenario.worker_event)))
    by (vm_compute; left; reflexivity).
  split; [exact Hin|].
  destruct (failed_delivery_is_answered_500 _ _ _ _ Hin) as (r & Hr & _ & Hnot_ok & _).
  unfold status_of. rewrite Hr. f_equal.
  exact (proj1 (Hnot_ok {| status := 503; text := Return "busy" |} eq_refl eq_refl)).
Defined.

(** * Further properties *)

(** ** The setter: calls, errors that escape, the scheduler's answer *)

Section SetterFurther.
Context `{Platform}.

Lemma handler_nullish w event :
  nullish (Setter.requestBody event) = true ->
  exists e, Setter.handler w event = throw e.
Proof. apply schedule_nullish. Qed.

(** X1: an invocation of the setter makes no outbound call or exactly one,
    a [CreateSchedule]; it makes none when it answers 400 and none when an
    error escapes it. *)
Theorem setter_sends_at_most_one_command (w : World) (event : value) :
  (calls (Setter.handler w event) = [] \/
   exists cmd, calls (Setter.handler w event) = [CallSend cmd]) /\
  (status_of (Setter.handler w event) = Some 400 \/
   status_of (Setter.handler w event) = None ->
   calls (Setter.handler w event) = []).
Proof.
  destruct (nullish (Setter.requestBody event)) eqn:Hn.
  - destruct (handler_nullish w event Hn) as [e ->]. split; [left|]; reflexivity.
  - destruct (parameters_exist _ Hn) as (u & b & t & Hp).
    destruct (handler_cases w event u b t Hp)
      as [[_ ->]|[(_ & e & _ & ->)|(_ & f & s & _ & ->)]].
    + split; [left|]; reflexivity.
    + split; [left|]; reflexivity.
    + split; [right; eauto|].
      unfold status_of. simpl. intros [[= H400]|[=]].
      exfalso. exact (or_500_answer_not_400 _ H400).
Qed.

(** X2: an error escapes the setter, in either revision, exactly when the
    decoded request is [null] or [undefined] (the text [null] as body, or a
    [null] event); it escapes before anything is sent. *)
Theorem setter_throws_iff_request_is_nullish (w : World) (event : value) :
  ((exists e, outcome (Setter.handler w event) = Throw e) <->
   nullish (Setter.requestBody event) = true) /\
  ((exists e, outcome (SetterV1.handler w event) = Throw e) <->
   nullish (Setter.requestBody event) = true) /\
  (nullish (Setter.requestBody event) = true ->
   Setter.handler w event = SetterV1.handler w event /\
   calls (Setter.handler w event) = []).
Proof.
  destruct (nullish (Setter.requestBody event)) eqn:Hn.
  - destruct (handler_nullish w event Hn) as [e He].
    assert (Hv1 : SetterV1.handler w event = throw e).
    { revert He. unfold Setter.handler, SetterV1.handler, Setter.schedule, SetterV1.schedule.
      destruct (destructure_nullish _ "requestBody" "target_url" Hn) as [e' ->].
      intros [= <-]. reflexivity. }
    rewrite He, Hv1. repeat split; eauto.
  - destruct (parameters_exist _ Hn) as (u & b & t & Hp).
    split; [|split]; [| |discriminate].
    + split; [|discriminate]. intros [e He]. exfalso. revert He.
      destruct (handler_cases w event u b t Hp)
        as [[_ ->]|[(_ & e' & _ & ->)|(_ & f & s & _ & ->)]]; discriminate.
    + split; [|discriminate]. intros [e He]. exfalso. revert He.
      unfold SetterV1.handler, SetterV1.schedule.
      destruct Hp as (-> & -> & ->). rewrite !bind_lift_Return.
      destruct (falsy u || falsy b || falsy t); [discriminate|].
      destruct (try_catch_returns (SetterV1.create_schedule w u b t) Setter.error_response)
        as [r ->]. discriminate.
Qed.

(** X3: once the command is sent, the scheduler's answer decides the
    response: an error of the service is answered 500 with the message of
    that error, an answer that is [null] or [undefined] is answered 500 as
    well, and every other answer is answered 200 with its [Name] and
    [ScheduleArn] (whether it has them or not). *)
Theorem scheduler_answer_decides_the_response
    (w : World) (event u b t : value) (formatted url_text : string) :
  parameters (Setter.requestBody event) u b t ->
  parameter_missing u b t = false ->
  ready w u t formatted url_text ->
  let cmd := command_of w u b formatted url_text in
  calls (Setter.handler w event) = [CallSend cmd] /\
  (forall e, send w cmd = Throw e ->
     outcome (Setter.handler w event) = Return (Setter.error_response e)) /\
  (forall response, send w cmd = Return response -> nullish response = true ->
     status_of (Setter.handler w event) = Some 500) /\
  (forall response, send w cmd = Return response -> nullish response = false ->
     outcome (Setter.handler w event) =
       Return (Setter.success_response (field response "Name")
                                       (field response "ScheduleArn"))).
Proof.
  intros Hp Hm Hready cmd.
  rewrite (handler_ready w event u b t formatted url_text Hp Hm Hready). fold cmd.
  unfold status_of, answer. simpl.
  split; [reflexivity|]. split; [|split].
  - intros e ->. reflexivity.
  - intros response -> Hn. simpl. unfold get. rewrite Hn. reflexivity.
  - intros response -> Hn. simpl. unfold get. rewrite Hn. reflexivity.
Qed.

(** X4: a command is only ever sent with the worker ARN and the role ARN of
    the environment, both non-empty, and with a group name that is not empty:
    the one of the environment if it has a non-empty one, [default]
    otherwise. *)
Theorem sent_command_names_the_environment
    (w : World) (event : value) (cmd : CreateScheduleCommand) :
  In (CallSend cmd) (calls (Setter.handler w event)) ->
  env w !! "WORKER_LAMBDA_ARN" = Some (Arn (Target_ cmd)) /\
  Arn (Target_ cmd) <> EmptyString /\
  env w !! "SCHEDULER_EXECUTION_ROLE_ARN" = Some (RoleArn (Target_ cmd)) /\
  RoleArn (Target_ cmd) <> EmptyString /\
  GroupName cmd <> EmptyString /\
  (forall g, env w !! "SCHEDULER_GROUP_NAME" = Some g -> g <> EmptyString ->
             GroupName cmd = g).
Proof.
  intros Hin.
  destruct (handler_sent _ _ _ Hin)
    as (u & b & t & f & s & _ & _ & _ & _ & (d & _ & _ & _ & Hw & Hr & _) & ->).
  unfold command_of, Setter.command. simpl.
  revert Hw Hr. unfold unset, or_default.
  destruct (env w !! "WORKER_LAMBDA_ARN") as [a|]; [|discriminate].
  destruct (env w !! "SCHEDULER_EXECUTION_ROLE_ARN") as [r|]; [|discriminate].
  intros Ha Hr. apply String.eqb_neq in Ha, Hr. simpl.
  split; [reflexivity|]. split; [exact Ha|]. split; [reflexivity|]. split; [exact Hr|].
  destruct (env w !! "SCHEDULER_GROUP_NAME") as [g|]; [|split; [discriminate|discriminate]].
  destruct (String.eqb g EmptyString) eqn:Hg.
  - apply String.eqb_eq in Hg. subst g. split; [discriminate|].
    intros g [= <-] Hne. contradiction.
  - apply String.eqb_neq in Hg. split; [exact Hg|]. intros g' [= <-] _. reflexivity.
Qed.

End SetterFurther.

(** ** The schedule name and the schedule expression *)

Section NameAndExpression.
Context `{Platform}.

Lemma pretty_N_char_is_name_char (x : N) : name_char (pretty_N_char x) = true.
Proof.
  unfold pretty_N_char.
  destruct x as [|p]; [reflexivity|].
  do 4 (destruct p as [p|p|]; try reflexivity).
Qed.

Lemma pretty_N_go_length (k : nat) :
  forall (x : N) (s : string),
    (x < 10 ^ N.of_nat k)%N ->
    (String.length s <= String.length (pretty_N_go x s) <= String.length s + k)%nat.
Proof.
  induction k as [|k IH]; intros x s Hx.
  - assert (x = 0%N) as -> by (simpl in Hx; lia). rewrite pretty_N_go_0. lia.
  - destruct (N.eq_dec x 0%N) as [->|Hpos]; [rewrite pretty_N_go_0; lia|].
    rewrite pretty_N_go_step by lia.
    assert (Hdiv : (x `div` 10 < 10 ^ N.of_nat k)%N).
    { apply N.Div0.div_lt_upper_bound.
      rewrite Nat2N.inj_succ, N.pow_succ_r' in Hx. exact Hx. }
    specialize (IH _ (String (pretty_N_char (x `mod` 10)) s) Hdiv).
    simpl in IH. lia.
Qed.

Lemma pretty_N_go_name_chars (x : N) :
  forall s, string_forallb name_char s = true ->
            string_forallb name_char (pretty_N_go x s) = true.
Proof.
  induction (N.lt_wf_0 x) as [x _ IH]; intros s Hs.
  destruct (N.eq_dec x 0%N) as [->|Hpos]; [rewrite pretty_N_go_0; exact Hs|].
  rewrite pretty_N_go_step by lia.
  apply IH; [apply N.div_lt; lia|].
  simpl. rewrite pretty_N_char_is_name_char. exact Hs.
Qed.

Lemma pretty_positive_length (p : positive) (k : nat) :
  (N.pos p < 10 ^ N.of_nat k)%N ->
  (1 <= String.length (pretty p) <= k)%nat.
Proof.
  intros Hp. unfold pretty, pretty_positive, pretty, pretty_N.
  destruct (decide (N.pos p = 0%N)) as [|_]; [discriminate|].
  rewrite pretty_N_go_step by lia.
  destruct k as [|k]; [simpl in Hp; lia|].
  assert (Hdiv : (N.pos p `div` 10 < 10 ^ N.of_nat k)%N).
  { apply N.Div0.div_lt_upper_bound.
    rewrite Nat2N.inj_succ, N.pow_succ_r' in Hp. exact Hp. }
  pose proof (pretty_N_go_length k _
                (String (pretty_N_char (N.pos p `mod` 10)) EmptyString) Hdiv) as Hlen.
  simpl in Hlen. lia.
Qed.

Lemma pretty_Z_length (n : Z) (k : nat) :
  (1 <= k)%nat -> Z.abs n < 10 ^ Z.of_nat k ->
  (1 <= String.length (pretty n) <= S k)%nat.
Proof.
  intros Hk Hn.
  assert (Hpos : forall p, Z.pos p < 10 ^ Z.of_nat k -> (N.pos p < 10 ^ N.of_nat k)%N).
  { intros p Hp. apply N2Z.inj_lt. rewrite N2Z.inj_pow, nat_N_Z. exact Hp. }
  destruct n as [|p|p]; unfold pretty, pretty_Z.
  - simpl. lia.
  - pose proof (pretty_positive_length p k (Hpos p Hn)). lia.
  - pose proof (pretty_positive_length p k (Hpos p Hn)) as Hlen.
    change (String.length ("-" +:+ pretty p)) with (S (String.length (pretty p))). lia.
Qed.

Lemma pretty_Z_name_chars (n : Z) : string_forallb name_char (pretty n) = true.
Proof.
  destruct n as [|p|p]; unfold pretty, pretty_Z; [reflexivity| |].
  - unfold pretty, pretty_positive, pretty, pretty_N.
    destruct (decide _); [reflexivity|]. apply pretty_N_go_name_chars. reflexivity.
  - change (string_forallb name_char ("-" +:+ pretty p))
      with (string_forallb name_char (pretty p)).
    unfold pretty, pretty_positive, pretty, pretty_N.
    destruct (decide _); [reflexivity|]. apply pretty_N_go_name_chars. reflexivity.
Qed.

(** X5: the name of every schedule that is asked for respects the limit of
    64 characters, as the source says: for a clock within the range of a
    [Date] (8.64e15 milliseconds either side of the epoch) it has between 9
    and 25 characters, and they are letters, digits and hyphens. *)
Theorem schedule_name_respects_the_limit
    (w : World) (event : value) (cmd : CreateScheduleCommand) :
  In (CallSend cmd) (calls (Setter.handler w event)) ->
  Z.abs (now w) <= 8640000000000000 ->
  (9 <= String.length (Name cmd) <= 25)%nat /\
  (String.length (Name cmd) <= 64)%nat /\
  string_forallb name_char (Name cmd) = true.
Proof.
  intros Hin Hnow.
  destruct (handler_sent _ _ _ Hin) as (u & b & t & f & s & _ & _ & _ & _ & _ & ->).
  change (Name (command_of w u b f s)) with ("oneTime-" +:+ pretty (now w)).
  assert (Hlen : (1 <= String.length (pretty (now w)) <= 17)%nat).
  { apply (pretty_Z_length (now w) 16); [lia|].
    change (10 ^ Z.of_nat 16) with 10000000000000000. lia. }
  change (String.length ("oneTime-" +:+ pretty (now w)))
    with (8 + String.length (pretty (now w)))%nat.
  split; [lia|]. split; [lia|].
  change (string_forallb name_char ("oneTime-" +:+ pretty (now w)))
    with (string_forallb name_char (pretty (now w))).
  apply pretty_Z_name_chars.
Qed.

Lemma slice0_append (core suffix : string) :
  slice0 (String.length core) (core +:+ suffix) = core.
Proof.
  unfold slice0. induction core as [|c core IH]; simpl.
  - destruct suffix; reflexivity.
  - rewrite IH. reflexivity.
Qed.

Lemma length_append (a b : string) :
  String.length (a +:+ b) = (String.length a + String.length b)%nat.
Proof. induction a as [|c a IH]; simpl; [reflexivity|]. rewrite IH. reflexivity. Qed.

Lemma slice0_length (n : nat) (s : string) :
  (String.length (slice0 n s) <= n)%nat.
Proof.
  unfold slice0. revert s. induction n as [|n IH]; intros [|c s]; simpl; try lia.
  specialize (IH s). lia.
Qed.

(** X6: the schedule expression is [at(...)] around the first 19
    characters of the formatted time: when the formatted time is 19 characters
    of date and time followed by a zone ([Z] or an offset), the zone is
    dropped and the expression is declared to be in UTC.  It never has more
    than 23 characters. *)
Theorem schedule_expression_drops_the_zone
    (w : World) (event u b t : value) (d : Date) (core zone : string)
    (cmd : CreateScheduleCommand) :
  parameters (Setter.requestBody event) u b t ->
  parseISO t = Return d ->
  formatISO d = Return (core +:+ zone) ->
  String.length core = 19%nat ->
  In (CallSend cmd) (calls (Setter.handler w event)) ->
  ScheduleExpression cmd = "at(" +:+ core +:+ ")" /\
  ScheduleExpressionTimezone cmd = "UTC" /\
  String.length (ScheduleExpression cmd) = 23%nat.
Proof.
  intros (_ & _ & Ht) Hd Hf Hlen Hin.
  destruct (handler_sent _ _ _ Hin)
    as (u' & b' & t' & f & s & (_ & _ & Ht') & _ & _ & _ & (d' & Hd' & _ & Hf' & _) & ->).
  rewrite Ht in Ht'. injection Ht' as <-.
  rewrite Hd in Hd'. injection Hd' as <-.
  rewrite Hf in Hf'. injection Hf' as <-.
  unfold command_of, Setter.command. simpl.
  rewrite <- Hlen, slice0_append.
  split; [reflexivity|]. split; [reflexivity|].
  rewrite !length_append. simpl. lia.
Qed.

End NameAndExpression.

(** ** The two revisions of the setter *)

Section Revisions.
Context `{Platform}.

Lemma v1_create_schedule_throws w u b t :
  exists e, SetterV1.create_schedule w u b t = throw e.
Proof.
  unfold SetterV1.create_schedule.
  destruct (parseISO t) as [d|e]; [|eauto].
  rewrite bind_lift_Return.
  destruct (isNaN_getTime d); [eauto|].
  destruct (formatISO d) as [f|e]; eauto.
Qed.

Lemma v1_handler_cases w event u b t :
  parameters (Setter.requestBody event) u b t ->
  (parameter_missing u b t = true /\
   SetterV1.handler w event = ([], Return Setter.missing_parameters)) \/
  (parameter_missing u b t = false /\
   exists e, SetterV1.create_schedule w u b t = throw e /\
             SetterV1.handler w event = ([], Return (Setter.error_response e))).
Proof.
  intros (Hu & Hb & Ht). unfold SetterV1.handler, SetterV1.schedule.
  rewrite Hu, bind_lift_Return, Hb, bind_lift_Return, Ht, bind_lift_Return.
  fold (parameter_missing u b t).
  destruct (parameter_missing u b t); [left; split; reflexivity|right].
  split; [reflexivity|].
  destruct (v1_create_schedule_throws w u b t) as [e He].
  exists e. split; [exact He|]. rewrite He, try_catch_throw. reflexivity.
Qed.

(** X7: the earlier revision of the setter never creates a schedule and
    never answers 200: it sends nothing, and a request that passes the
    presence check and whose time parses and formats is answered 500 with
    the [ReferenceError] for the unbound [workerLambdaArn]. *)
Theorem earlier_revision_never_schedules (w : World) (event : value) :
  calls (SetterV1.handler w event) = [] /\
  status_of (SetterV1.handler w event) <> Some 200 /\
  (forall u b t d formatted,
     parameters (Setter.requestBody event) u b t ->
     parameter_missing u b t = false ->
     parseISO t = Return d -> isNaN_getTime d = false ->
     formatISO d = Return formatted ->
     SetterV1.handler w event =
       ([], Return (Setter.error_response
                      (ReferenceError "workerLambdaArn is not defined")))).
Proof.
  split; [|split].
  - destruct (nullish (Setter.requestBody event)) eqn:Hn.
    + unfold SetterV1.handler, SetterV1.schedule.
      destruct (destructure_nullish _ "requestBody" "target_url" Hn) as [e ->].
      reflexivity.
    + destruct (parameters_exist _ Hn) as (u & b & t & Hp).
      destruct (v1_handler_cases w event u b t Hp) as [[_ ->]|(_ & e & _ & ->)];
        reflexivity.
  - destruct (nullish (Setter.requestBody event)) eqn:Hn.
    + unfold SetterV1.handler, SetterV1.schedule.
      destruct (destructure_nullish _ "requestBody" "target_url" Hn) as [e ->].
      discriminate.
    + destruct (parameters_exist _ Hn) as (u & b & t & Hp).
      destruct (v1_handler_cases w event u b t Hp) as [[_ ->]|(_ & e & _ & ->)];
        discriminate.
  - intros u b t d formatted (Hu & Hb & Ht) Hm Hd Hnan Hf.
    unfold SetterV1.handler, SetterV1.schedule.
    rewrite Hu, bind_lift_Return, Hb, bind_lift_Return, Ht, bind_lift_Return.
    fold (parameter_missing u b t). rewrite Hm.
    unfold SetterV1.create_schedule.
    rewrite Hd, bind_lift_Return, Hnan, Hf, bind_lift_Return, try_catch_throw.
    reflexivity.
Qed.

(** X8: the two revisions read and check a request alike: one answers 400
    exactly when the other does, with the same response, and where the
    current revision answers 200 or 500 the earlier one answers 500. *)
Theorem revisions_agree_on_the_presence_check (w : World) (event : value) :
  (status_of (SetterV1.handler w event) = Some 400 <->
   status_of (Setter.handler w event) = Some 400) /\
  (status_of (Setter.handler w event) = Some 400 ->
   SetterV1.handler w event = Setter.handler w event) /\
  (status_of (Setter.handler w event) = Some 200 \/
   status_of (Setter.handler w event) = Some 500 ->
   status_of (SetterV1.handler w event) = Some 500).
Proof.
  destruct (nullish (Setter.requestBody event)) eqn:Hn.
  - destruct (handler_nullish w event Hn) as [e He].
    assert (Hv1 : SetterV1.handler w event = throw e).
    { revert He. unfold Setter.handler, SetterV1.handler, Setter.schedule, SetterV1.schedule.
      destruct (destructure_nullish _ "requestBody" "target_url" Hn) as [e' ->].
      intros [= <-]. reflexivity. }
    rewrite He, Hv1. unfold status_of. simpl.
    split; [split; discriminate|]. split; [discriminate|]. intros [|]; discriminate.
  - destruct (parameters_exist _ Hn) as (u & b & t & Hp).
    pose proof (status_400_iff w event u b t Hp) as H400.
    destruct (v1_handler_cases w event u b t Hp) as [[Hm Hv1]|(Hm & e & _ & Hv1)];
      rewrite Hv1; unfold status_of at 1; simpl.
    + assert (Hv2 : Setter.handler w event = ([], Return Setter.missing_parameters)).
      { destruct (handler_cases w event u b t Hp)
          as [[_ ->]|[(Hm' & _)|(Hm' & _)]]; [reflexivity|congruence|congruence]. }
      rewrite Hv2. unfold status_of. simpl.
      split; [split; reflexivity|]. split; [reflexivity|]. intros [|]; discriminate.
    + split; [|split].
      * split; [discriminate|]. intros Hs. apply H400 in Hs. congruence.
      * intros Hs. apply H400 in Hs. congruence.
      * intros _. reflexivity.
Qed.

(** X9: a [target_url] that cannot be converted to a string (a decoded
    object with a property named [toString]) stops the request while the
    command is being built: nothing is sent, and once the time and the
    environment have passed their checks the response is the 500 carrying
    the error of the conversion. *)
Theorem unprintable_target_url_is_answered_500
    (w : World) (event u b t : value) (e : JSError) :
  parameters (Setter.requestBody event) u b t ->
  parameter_missing u b t = false ->
  ToString u = Throw e ->
  calls (Setter.handler w event) = [] /\
  status_of (Setter.handler w event) = Some 500 /\
  (forall d formatted,
     parseISO t = Return d -> isNaN_getTime d = false ->
     formatISO d = Return formatted ->
     unset (env w !! "WORKER_LAMBDA_ARN") = false ->
     unset (env w !! "SCHEDULER_EXECUTION_ROLE_ARN") = false ->
     Setter.handler w event = ([], Return (Setter.error_response e))).
Proof.
  intros Hp Hm Hs.
  assert (Hrun : Setter.handler w event =
                 try_catch (Setter.create_schedule w u b t)
                           (fun error => mret (Setter.error_response error))).
  { unfold Setter.handler. rewrite (schedule_parameters w _ _ _ _ Hp).
    fold (parameter_missing u b t). rewrite Hm. reflexivity. }
  destruct (create_schedule_cases w u b t) as [[e' He]|(f & s & d & _ & _ & _ & _ & _ & Hs')].
  - rewrite Hrun, He, try_catch_throw. split; [reflexivity|]. split; [reflexivity|].
    intros d formatted Hd Hnan Hf Hw Hr. revert He. unfold Setter.create_schedule.
    rewrite Hd, bind_lift_Return, Hnan, Hf, bind_lift_Return, Hw, Hr, Hs.
    intros [= <-]. reflexivity.
  - rewrite Hs in Hs'. discriminate.
Qed.

(** X10: a body that is JSON but no object (a number, a string, a boolean, an
    array) is taken as the request and has none of the three parameters: it
    is answered 400 by both revisions, whatever else the event carries. *)
Theorem body_that_is_no_object_is_answered_400
    (w : World) (event v : value) :
  Setter.parse_body event = Return v ->
  nullish v = false ->
  (forall props, v <> VObj props) ->
  Setter.handler w event = ([], Return Setter.missing_parameters) /\
  SetterV1.handler w event = ([], Return Setter.missing_parameters).
Proof.
  intros Hparse Hn Hobj.
  assert (Hrb : Setter.requestBody event = v)
    by (unfold Setter.requestBody; rewrite Hparse; reflexivity).
  assert (Hfield : forall k, field v k = VUndefined).
  { intros k. destruct v; try reflexivity. exfalso. exact (Hobj _ eq_refl). }
  unfold Setter.handler, SetterV1.handler, Setter.schedule, SetterV1.schedule.
  rewrite Hrb, !(destructure_Return v _ _ Hn), !Hfield, !bind_lift_Return.
  split; reflexivity.
Qed.

End Revisions.

(** ** The request when the body does not parse *)

Section Fallback.
Context `{Platform}.

(** C10: when [JSON.parse(event.body)] throws (no [body], or a [body] that is
    not JSON text) the event itself is the request, in both revisions, and the
    failed parse is not an error of its own: the response is the one the
    event's own [target_url], [target_body] and [schedule_time_utc] lead to.
    It is a 400 exactly when one of these three is missing or falsy in the
    event; otherwise the current revision goes on to the scheduler with them,
    answering 200 when the scheduler answers, and the response is the same as
    for that request arriving as JSON text in a [body]. *)
Theorem body_parse_failure_falls_back_to_event
    (w : World) (event : value) (e : JSError) :
  Setter.parse_body event = Throw e ->
  Setter.requestBody event = event /\
  (forall wrapped, Setter.parse_body wrapped = Return event ->
     Setter.handler w wrapped = Setter.handler w event /\
     SetterV1.handler w wrapped = SetterV1.handler w event) /\
  (forall u b t, parameters event u b t ->
     (status_of (Setter.handler w event) = Some 400 <-> parameter_missing u b t = true) /\
     (status_of (SetterV1.handler w event) = Some 400 <-> parameter_missing u b t = true) /\
     (forall formatted url_text,
        parameter_missing u b t = false -> ready w u t formatted url_text ->
        let cmd := command_of w u b formatted url_text in
        Setter.handler w event = ([CallSend cmd], Return (or_500 (answer (send w cmd)))) /\
        Input (Target_ cmd) = JSON_stringify (VObj [("url", u); ("body", b)]) /\
        (forall response, send w cmd = Return response -> nullish response = false ->
           status_of (Setter.handler w event) = Some 200))).
Proof.
  intros He.
  assert (Hrb : Setter.requestBody event = event)
    by (unfold Setter.requestBody; rewrite He; reflexivity).
  split; [exact Hrb|]. split.
  - intros wrapped Hw.
    assert (Hrw : Setter.requestBody wrapped = event)
      by (unfold Setter.requestBody; rewrite Hw; reflexivity).
    unfold Setter.handler, SetterV1.handler. rewrite Hrw, Hrb. split; reflexivity.
  - intros u b t Hp. rewrite <- Hrb in Hp. split; [|split].
    + apply status_400_iff. exact Hp.
    + destruct (v1_handler_cases w event u b t Hp) as [[Hm ->]|(Hm & e' & _ & ->)];
        rewrite Hm; unfold status_of; simpl; split; (reflexivity || discriminate).
    + intros formatted url_text Hm Hready cmd.
      pose proof (handler_ready w event u b t formatted url_text Hp Hm Hready) as Hrun.
      fold cmd in Hrun. split; [exact Hrun|]. split; [reflexivity|].
      intros response Hsend Hn. rewrite Hrun. unfold status_of. simpl.
      rewrite Hsend, (answer_Return _ Hn). reflexivity.
Qed.

End Fallback.

(** ** The worker: its check, its request, its report *)

Section WorkerFurther.
Context `{Platform}.

Lemma worker_fields_exist (event : value) :
  nullish event = false ->
  worker_fields event (field event "url") (field event "body").
Proof.
  intros Hn. unfold worker_fields. rewrite !(destructure_Return _ _ _ Hn).
  split; reflexivity.
Qed.

Lemma worker_nullish w event :
  nullish event = true -> exists e, Worker.handler w event = throw e.
Proof.
  intros Hn. destruct (destructure_nullish _ "event" "url" Hn) as [e He].
  exists e. unfold Worker.handler. rewrite He. reflexivity.
Qed.

(** The three ways an invocation of the worker with a destructurable event
    ends. *)
Lemma worker_cases w event url body :
  worker_fields event url body ->
  (falsy url || falsy body = true /\
   Worker.handler w event = ([], Return Worker.missing_payload)) \/
  (falsy url || falsy body = false /\
   exists e, ToString url = Throw e /\
             Worker.handler w event = ([], Return (Worker.error_response e))) \/
  (falsy url || falsy body = false /\
   exists s, ToString url = Return s /\
             Worker.handler w event =
               ([CallFetch url (Worker.post body)],
                Return (worker_or_500 (delivery (fetch w url (Worker.post body)))))).
Proof.
  intros [Hu Hb]. rewrite (worker_handler_fields w event url body Hu Hb).
  destruct (falsy url || falsy body); [left; split; reflexivity|right].
  destruct (call_webhook_cases w url body) as [(e & He & ->)|(s & Hs & ->)].
  - left. split; [reflexivity|]. exists e. split; [exact He|].
    rewrite try_catch_throw. reflexivity.
  - right. split; [reflexivity|]. exists s. split; [exact Hs|].
    destruct (delivery _); reflexivity.
Qed.

Lemma worker_or_500_not_400 (c : completion Response) :
  (forall r, c = Return r -> statusCode r <> 400) ->
  statusCode (worker_or_500 c) <> 400.
Proof. destruct c as [r|e]; simpl; [intros Hr; exact (Hr r eq_refl)|discriminate]. Qed.

Lemma delivery_not_400 (result : completion FetchResponse) :
  statusCode (worker_or_500 (delivery result)) <> 400.
Proof.
  destruct (delivery_cases result) as [(response & data & _ & _ & _ & ->)|[e [-> _]]];
    discriminate.
Qed.

(** X11: the worker answers 400 exactly when the [url] or the [body] of
    its event is missing or falsy, and then it has made no request. *)
Theorem worker_400_iff_payload_missing
    (w : World) (event url body : value) :
  worker_fields event url body ->
  (status_of (Worker.handler w event) = Some 400 <-> falsy url || falsy body = true) /\
  (falsy url || falsy body = true ->
   Worker.handler w event = ([], Return Worker.missing_payload)).
Proof.
  intros Hf.
  destruct (worker_cases w event url body Hf)
    as [[Hm ->]|[(Hm & e & _ & ->)|(Hm & s & _ & ->)]]; rewrite Hm; unfold status_of; simpl.
  - split; [split; reflexivity|reflexivity].
  - split; [split; discriminate|discriminate].
  - split; [|discriminate]. split; [|discriminate].
    intros [= H400]. exfalso. exact (delivery_not_400 _ H400).
Qed.

(** X12: the worker makes at most one request, and a request it makes is
    the only call of the invocation: a POST to the [url] of the event, with
    the headers [Content-Type: application/json] and
    [X-Scheduler-Invocation: true], whose body is [JSON.stringify] of the
    [body] of the event. *)
Theorem worker_request_is_one_post
    (w : World) (event url : value) (init : RequestInit) :
  In (CallFetch url init) (calls (Worker.handler w event)) ->
  calls (Worker.handler w event) = [CallFetch url init] /\
  url = field event "url" /\
  method init = "POST" /\
  headers init = [("Content-Type", "application/json"); ("X-Scheduler-Invocation", "true")] /\
  request_body init = JSON_stringify (field event "body") /\
  truthy (field event "url") = true /\ truthy (field event "body") = true.
Proof.
  intros Hin.
  destruct (nullish event) eqn:Hn.
  { destruct (worker_nullish w event Hn) as [e He]. rewrite He in Hin. destruct Hin. }
  pose proof (worker_fields_exist event Hn) as Hf.
  destruct (worker_cases w event _ _ Hf)
    as [[_ Hrun]|[(_ & e & _ & Hrun)|(Hm & s & _ & Hrun)]]; rewrite Hrun in Hin |- *;
    try (destruct Hin; fail).
  destruct Hin as [[= <- <-]|[]].
  apply orb_false_iff in Hm as [Hu Hb]. unfold falsy in Hu, Hb.
  apply negb_false_iff in Hu, Hb. repeat split; assumption.
Qed.

(** X13: an error escapes the worker exactly when its event is [null] or
    [undefined], and it escapes before any request. *)
Theorem worker_throws_iff_event_is_nullish (w : World) (event : value) :
  ((exists e, outcome (Worker.handler w event) = Throw e) <-> nullish event = true) /\
  (nullish event = true -> calls (Worker.handler w event) = []).
Proof.
  destruct (nullish event) eqn:Hn.
  - destruct (worker_nullish w event Hn) as [e ->]. split; [split; eauto|reflexivity].
  - split; [|discriminate]. split; [|discriminate].
    intros [e He]. exfalso. revert He.
    destruct (worker_cases w event _ _ (worker_fields_exist event Hn))
      as [[_ ->]|[(_ & e' & _ & ->)|(_ & s & _ & ->)]]; discriminate.
Qed.

(** X14: what the worker reports of a response whose text it has read: for
    a status from 200 to 299 the 200 response that carries the status and the
    text of the webhook, for every other status (199, 300, 404, 503...) the
    500 whose message names the status and the text. *)
Theorem worker_reports_the_webhook
    (w : World) (event url : value) (init : RequestInit)
    (response : FetchResponse) (data : string) :
  In (CallFetch url init) (calls (Worker.handler w event)) ->
  fetch w url init = Return response ->
  text response = Return data ->
  (200 <= status response <= 299 ->
   outcome (Worker.handler w event) = Return (Worker.success_response response data)) /\
  (status response < 200 \/ 299 < status response ->
   outcome (Worker.handler w event) =
     Return (Worker.error_response
               (Error ("Webhook call failed with status " +:+ pretty (status response)
                       +:+ " and body: " +:+ data)))).
Proof.
  intros Hin Hfetch Htext.
  destruct (worker_fetched _ _ _ _ Hin) as (body & -> & ->).
  simpl. rewrite Hfetch. unfold delivery. simpl. rewrite Htext. unfold ok.
  split.
  - intros [Hlo Hhi].
    apply Z.leb_le in Hlo, Hhi. rewrite Hlo, Hhi. reflexivity.
  - intros [Hlo|Hhi].
    + apply Z.leb_gt in Hlo. rewrite Hlo. reflexivity.
    + apply Z.leb_gt in Hhi. rewrite Hhi, andb_false_r. reflexivity.
Qed.

(** X15: a [url] that cannot be converted to a string stops the worker at
    the line that logs the request: no request is made, and the response is
    the 500 carrying the error of the conversion. *)
Theorem worker_unprintable_url_is_answered_500
    (w : World) (event url body : value) (e : JSError) :
  worker_fields event url body ->
  truthy url = true -> truthy body = true ->
  ToString url = Throw e ->
  Worker.handler w event = ([], Return (Worker.error_response e)).
Proof.
  intros Hf Hu Hb Hs.
  destruct (worker_cases w event url body Hf)
    as [[Hm _]|[(_ & e' & He' & ->)|(_ & s & Hs' & _)]].
  - exfalso. revert Hm. unfold falsy. rewrite Hu, Hb. discriminate.
  - rewrite Hs in He'. injection He' as <-. reflexivity.
  - rewrite Hs in Hs'. discriminate.
Qed.

End WorkerFurther.

(** ** The setter as the stack deploys it *)

Section Deployment.
Context `{Platform}.

Lemma stack_environment (t : Stack.Tokens) :
  Stack.environment (Stack.setterLambda (Stack.constructor t)) !! "WORKER_LAMBDA_ARN"
    = Some (Stack.workerLambda_functionArn t) /\
  Stack.environment (Stack.setterLambda (Stack.constructor t))
    !! "SCHEDULER_EXECUTION_ROLE_ARN"
    = Some (Stack.schedulerExecutionRole_roleArn t) /\
  Stack.environment (Stack.setterLambda (Stack.constructor t)) !! "SCHEDULER_GROUP_NAME"
    = Some "default".
Proof.
  simpl. split; [apply lookup_insert_eq|]. split.
  - rewrite !lookup_insert_ne by discriminate. apply lookup_singleton_eq.
  - rewrite lookup_insert_ne by discriminate. apply lookup_insert_eq.
Qed.

Lemma deployed_environment (t : Stack.Tokens) (w : World) :
  deployed t w ->
  env w !! "WORKER_LAMBDA_ARN" = Some (Stack.workerLambda_functionArn t) /\
  env w !! "SCHEDULER_EXECUTION_ROLE_ARN" = Some (Stack.schedulerExecutionRole_roleArn t) /\
  env w !! "SCHEDULER_GROUP_NAME" = Some "default".
Proof.
  unfold deployed. intros Hsub.
  destruct (stack_environment t) as (Hw & Hr & Hg).
  split; [|split]; eapply lookup_weaken; eassumption.
Qed.

Lemma unset_Some (s : string) : s <> EmptyString -> unset (Some s) = false.
Proof. intros Hs. simpl. apply String.eqb_neq. exact Hs. Qed.

(** X16: in an environment that holds the variables the stack gives the
    setter, and with ARNs that are not empty, the checks of the environment
    never fail: a request with
    its three parameters, a time that parses and formats and a printable URL
    is sent to the scheduler, and every command sent names the worker
    function of the stack as target, the execution role of the stack as role
    and the group [default]. *)
Theorem deployed_setter_reaches_the_scheduler
    (t : Stack.Tokens) (w : World) :
  deployed t w ->
  Stack.workerLambda_functionArn t <> EmptyString ->
  Stack.schedulerExecutionRole_roleArn t <> EmptyString ->
  (forall event u b ts d formatted url_text,
     parameters (Setter.requestBody event) u b ts ->
     parameter_missing u b ts = false ->
     parseISO ts = Return d -> isNaN_getTime d = false ->
     formatISO d = Return formatted ->
     ToString u = Return url_text ->
     calls (Setter.handler w event) = [CallSend (command_of w u b formatted url_text)]) /\
  (forall event cmd,
     In (CallSend cmd) (calls (Setter.handler w event)) ->
     Arn (Target_ cmd) = Stack.workerLambda_functionArn t /\
     RoleArn (Target_ cmd) = Stack.schedulerExecutionRole_roleArn t /\
     GroupName cmd = "default").
Proof.
  intros Hdep Hworker Hrole.
  destruct (deployed_environment t w Hdep) as (Hw & Hr & Hg).
  split.
  - intros event u b ts d formatted url_text Hp Hm Hd Hnan Hf Hs.
    assert (Hready : ready w u ts formatted url_text).
    { exists d. rewrite Hw, Hr. auto 10 using unset_Some. }
    rewrite (handler_ready w event u b ts formatted url_text Hp Hm Hready).
    reflexivity.
  - intros event cmd Hin.
    destruct (handler_sent _ _ _ Hin) as (u & b & ts & f & s & _ & _ & _ & _ & _ & ->).
    unfold command_of, Setter.command. simpl. rewrite Hw, Hr, Hg.
    repeat split.
Qed.

(** X17: the permissions of the stack cover what the setter asks the
    scheduler to do: the policy of the execution role grants
    [lambda:InvokeFunction] on the very ARN every command names as target,
    the policy added to the setter grants [iam:PassRole] on the very role
    every command passes, and that role is assumed by the scheduler
    service. *)
Theorem stack_permissions_cover_the_command
    (t : Stack.Tokens) (w : World) (event : value) (cmd : CreateScheduleCommand) :
  deployed t w ->
  In (CallSend cmd) (calls (Setter.handler w event)) ->
  Stack.grants (Stack.role_statements (Stack.schedulerExecutionRole (Stack.constructor t)))
               "lambda:InvokeFunction" (Arn (Target_ cmd)) /\
  Stack.grants (Stack.setterLambda_rolePolicy (Stack.constructor t))
               "iam:PassRole" (RoleArn (Target_ cmd)) /\
  Stack.assumedBy (Stack.schedulerExecutionRole (Stack.constructor t))
    = "scheduler.amazonaws.com".
Proof.
  intros Hdep Hin.
  destruct (deployed_environment t w Hdep) as (Hw & Hr & _).
  destruct (handler_sent _ _ _ Hin) as (u & b & ts & f & s & _ & _ & _ & _ & _ & ->).
  unfold command_of, Setter.command. simpl. rewrite Hw, Hr. simpl.
  split; [|split; [|reflexivity]].
  - eexists. split; [left; reflexivity|]. simpl. auto.
  - eexists. split; [left; reflexivity|]. simpl. auto.
Qed.

End Deployment.

(** ** The further properties on the scenario *)

Lemma scenario_is_ready_when_down :
  ready (Scenario.world_down Scenario.new_years_eve) Scenario.hook Scenario.fire_at
        "2030-01-01T00:00:00Z" "https://example.com/hook".
Proof. exists (DateAt 1893456000000). repeat split. Qed.

Lemma scenario_is_sent :
  In (CallSend (Scenario.registered Scenario.new_years_eve))
     (calls (Setter.handler (Scenario.world Scenario.new_years_eve) Scenario.posted)).
Proof. vm_compute. left. reflexivity. Qed.

Lemma scenario_is_deployed (clock : Z) :
  deployed Scenario.tokens (Scenario.lambda_world clock).
Proof.
  unfold deployed.
  change (Scenario.environment ⊆ Scenario.lambda_environment).
  unfold Scenario.lambda_environment.
  etransitivity; apply insert_subseteq; reflexivity.
Qed.

Lemma scenario_is_sent_when_deployed :
  In (CallSend (Scenario.registered Scenario.new_years_eve))
     (calls (Setter.handler (Scenario.lambda_world Scenario.new_years_eve) Scenario.posted)).
Proof. vm_compute. left. reflexivity. Qed.

(** The scenario with the scheduler service down: 500 with its message. *)
Lemma scenario_with_the_scheduler_down :
  parameter_missing Scenario.hook Scenario.payload Scenario.fire_at = false /\
  outcome (Setter.handler (Scenario.world_down Scenario.new_years_eve) Scenario.posted)
    = Return (Setter.error_response
                (mkError "ServiceUnavailableException" "Service Unavailable")) /\
  status_of (Setter.handler (Scenario.world_down Scenario.new_years_eve) Scenario.posted)
    = Some 500.
Proof.
  destruct (scheduler_answer_decides_the_response
              (Scenario.world_down Scenario.new_years_eve) Scenario.posted
              Scenario.hook Scenario.payload Scenario.fire_at
              "2030-01-01T00:00:00Z" "https://example.com/hook"
              scenario_parameters eq_refl scenario_is_ready_when_down)
    as (_ & Hthrow & _).
  split; [reflexivity|].
  pose proof (Hthrow _ eq_refl) as Hout.
  split; [exact Hout|]. unfold status_of. rewrite Hout. reflexivity.
Defined.

(** The command of the scenario names the ARNs of its environment. *)
Lemma scenario_command_names_the_environment :
  In (CallSend (Scenario.registered Scenario.new_years_eve))
     (calls (Setter.handler (Scenario.world Scenario.new_years_eve) Scenario.posted)) /\
  Scenario.environment !! "WORKER_LAMBDA_ARN"
    = Some (Arn (Target_ (Scenario.registered Scenario.new_years_eve))) /\
  GroupName (Scenario.registered Scenario.new_years_eve) <> EmptyString.
Proof.
  split; [exact scenario_is_sent|].
  destruct (sent_command_names_the_environment _ _ _ scenario_is_sent)
    as (Hw & _ & _ & _ & Hg & _).
  split; [exact Hw|exact Hg].
Defined.

(** The name of the scenario has 21 characters, within the limit. *)
Lemma scenario_name_respects_the_limit :
  Z.abs (now (Scenario.world Scenario.new_years_eve)) <= 8640000000000000 /\
  (String.length (Name (Scenario.registered Scenario.new_years_eve)) <= 64)%nat /\
  string_forallb name_char (Name (Scenario.registered Scenario.new_years_eve)) = true.
Proof.
  assert (Hnow : Z.abs (now (Scenario.world Scenario.new_years_eve)) <= 8640000000000000)
    by (vm_compute; discriminate).
  split; [exact Hnow|].
  destruct (schedule_name_respects_the_limit _ _ _ scenario_is_sent Hnow) as (_ & Hlen & Hchars).
  split; [exact Hlen|exact Hchars].
Defined.

(** The expression of the scenario: the formatted time without its [Z]. *)
Lemma scenario_expression_drops_the_zone :
  formatISO (DateAt 1893456000000) = Return ("2030-01-01T00:00:00" +:+ "Z") /\
  String.length "2030-01-01T00:00:00" = 19%nat /\
  ScheduleExpression (Scenario.registered Scenario.new_years_eve)
    = "at(2030-01-01T00:00:00)".
Proof.
  split; [reflexivity|]. split; [reflexivity|].
  exact (proj1 (schedule_expression_drops_the_zone
                  (Scenario.world Scenario.new_years_eve) Scenario.posted
                  Scenario.hook Scenario.payload Scenario.fire_at
                  (DateAt 1893456000000) "2030-01-01T00:00:00" "Z"
                  (Scenario.registered Scenario.new_years_eve)
                  scenario_parameters eq_refl eq_refl eq_refl scenario_is_sent)).
Defined.

(** A [target_url] that is an object with a [toString] property. *)
Lemma scenario_with_an_unprintable_url :
  parameters (Setter.requestBody
                (Scenario.request (VObj [("toString", VNum 1)]) Scenario.payload
                                  Scenario.fire_at))
             (VObj [("toString", VNum 1)]) Scenario.payload Scenario.fire_at /\
  ToString (VObj [("toString", VNum 1)])
    = Throw (TypeError "Cannot convert object to primitive value") /\
  Setter.handler (Scenario.world Scenario.new_years_eve)
                 (Scenario.request (VObj [("toString", VNum 1)]) Scenario.payload
                                   Scenario.fire_at)
  = ([], Return (Setter.error_response
                   (TypeError "Cannot convert object to primitive value"))).
Proof.
  assert (Hp : parameters (Setter.requestBody
                (Scenario.request (VObj [("toString", VNum 1)]) Scenario.payload
                                  Scenario.fire_at))
             (VObj [("toString", VNum 1)]) Scenario.payload Scenario.fire_at)
    by (repeat split).
  split; [exact Hp|]. split; [reflexivity|].
  destruct (unprintable_target_url_is_answered_500
              (Scenario.world Scenario.new_years_eve) _ _ _ _ _ Hp eq_refl eq_refl)
    as (_ & _ & Hrun).
  exact (Hrun (DateAt 1893456000000) "2030-01-01T00:00:00Z"
              eq_refl eq_refl eq_refl eq_refl eq_refl).
Defined.

(** The text [5] POSTed to the Function URL. *)
Lemma number_as_body_is_answered_400 :
  Setter.parse_body (Scenario.function_url_event "5") = Return (VNum 5) /\
  Setter.handler (Scenario.world Scenario.new_years_eve) (Scenario.function_url_event "5")
  = ([], Return Setter.missing_parameters).
Proof.
  assert (Hparse : Setter.parse_body (Scenario.function_url_event "5") = Return (VNum 5))
    by reflexivity.
  split; [exact Hparse|].
  apply (body_that_is_no_object_is_answered_400
           (Scenario.world Scenario.new_years_eve) (Scenario.function_url_event "5")
           (VNum 5) Hparse eq_refl).
  intros props. discriminate.
Defined.

(** An event without [body] is answered 400 by the worker. *)
Lemma worker_event_without_body :
  worker_fields (VObj [("url", Scenario.hook)]) Scenario.hook VUndefined /\
  status_of (Worker.handler (Scenario.worker_world (Scenario.webhook 200 (Return "ok")))
                            (VObj [("url", Scenario.hook)])) = Some 400.
Proof.
  assert (Hf : worker_fields (VObj [("url", Scenario.hook)]) Scenario.hook VUndefined)
    by (split; reflexivity).
  split; [exact Hf|].
  destruct (worker_400_iff_payload_missing
              (Scenario.worker_world (Scenario.webhook 200 (Return "ok"))) _ _ _ Hf)
    as [Hiff _].
  apply Hiff. reflexivity.
Defined.

Lemma scenario_is_fetched :
  In (CallFetch Scenario.hook (Worker.post Scenario.payload))
     (calls (Worker.handler (Scenario.worker_world (Scenario.webhook 200 (Return "ok")))
                            Scenario.worker_event)).
Proof. vm_compute. left. reflexivity. Qed.

Lemma scenario_is_fetched_and_redirected :
  In (CallFetch Scenario.hook (Worker.post Scenario.payload))
     (calls (Worker.handler (Scenario.worker_world (Scenario.webhook 301 (Return "moved")))
                            Scenario.worker_event)).
Proof. vm_compute. left. reflexivity. Qed.

(** The request of the scenario. *)
Lemma scenario_request_is_one_post :
  In (CallFetch Scenario.hook (Worker.post Scenario.payload))
     (calls (Worker.handler (Scenario.worker_world (Scenario.webhook 200 (Return "ok")))
                            Scenario.worker_event)) /\
  calls (Worker.handler (Scenario.worker_world (Scenario.webhook 200 (Return "ok")))
                        Scenario.worker_event)
    = [CallFetch Scenario.hook (Worker.post Scenario.payload)] /\
  method (Worker.post Scenario.payload) = "POST".
Proof.
  split; [apply scenario_is_fetched|].
  destruct (worker_request_is_one_post _ _ _ _ scenario_is_fetched)
    as (Hcalls & _ & Hmethod & _).
  split; [exact Hcalls|exact Hmethod].
Defined.

(** The webhook of the scenario redirecting: 301 is no success. *)
Lemma scenario_301_is_reported :
  In (CallFetch Scenario.hook (Worker.post Scenario.payload))
     (calls (Worker.handler (Scenario.worker_world (Scenario.webhook 301 (Return "moved")))
                            Scenario.worker_event)) /\
  outcome (Worker.handler (Scenario.worker_world (Scenario.webhook 301 (Return "moved")))
                          Scenario.worker_event)
  = Return (Worker.error_response
              (Error "Webhook call failed with status 301 and body: moved")).
Proof.
  split; [apply scenario_is_fetched_and_redirected|].
  destruct (worker_reports_the_webhook
              (Scenario.worker_world (Scenario.webhook 301 (Return "moved")))
              Scenario.worker_event Scenario.hook (Worker.post Scenario.payload)
              {| status := 301; text := Return "moved" |} "moved"
              scenario_is_fetched_and_redirected eq_refl eq_refl)
    as [_ Hfail].
  apply Hfail. right. reflexivity.
Defined.

(** An event whose [url] is an object with a [toString] property. *)
Lemma worker_event_with_an_unprintable_url :
  worker_fields (VObj [("url", VObj [("toString", VNum 1)]); ("body", Scenario.payload)])
                (VObj [("toString", VNum 1)]) Scenario.payload /\
  Worker.handler (Scenario.worker_world (Scenario.webhook 200 (Return "ok")))
                 (VObj [("url", VObj [("toString", VNum 1)]); ("body", Scenario.payload)])
  = ([], Return (Worker.error_response
                   (TypeError "Cannot convert object to primitive value"))).
Proof.
  assert (Hf : worker_fields
                 (VObj [("url", VObj [("toString", VNum 1)]); ("body", Scenario.payload)])
                 (VObj [("toString", VNum 1)]) Scenario.payload)
    by (split; reflexivity).
  split; [exact Hf|].
  exact (worker_unprintable_url_is_answered_500
           (Scenario.worker_world (Scenario.webhook 200 (Return "ok"))) _ _ _ _
           Hf eq_refl eq_refl eq_refl).
Defined.

(** The scenario in the deployment of [Scenario.tokens], whose environment
    also has the variables of the Lambda runtime. *)
Lemma scenario_is_deployed_and_sent :
  deployed Scenario.tokens (Scenario.lambda_world Scenario.new_years_eve) /\
  env (Scenario.lambda_world Scenario.new_years_eve) !! "AWS_REGION" = Some "eu-west-1" /\
  Stack.workerLambda_functionArn Scenario.tokens <> EmptyString /\
  Stack.schedulerExecutionRole_roleArn Scenario.tokens <> EmptyString /\
  calls (Setter.handler (Scenario.lambda_world Scenario.new_years_eve) Scenario.posted)
    = [CallSend (Scenario.registered Scenario.new_years_eve)] /\
  GroupName (Scenario.registered Scenario.new_years_eve) = "default".
Proof.
  assert (Hw : Stack.workerLambda_functionArn Scenario.tokens <> EmptyString)
    by discriminate.
  assert (Hr : Stack.schedulerExecutionRole_roleArn Scenario.tokens <> EmptyString)
    by discriminate.
  destruct (deployed_setter_reaches_the_scheduler Scenario.tokens _
              (scenario_is_deployed Scenario.new_years_eve) Hw Hr) as [Hsend Hnames].
  split; [apply scenario_is_deployed|]. split; [reflexivity|].
  split; [exact Hw|]. split; [exact Hr|].
  split.
  - rewrite (Hsend Scenario.posted Scenario.hook Scenario.payload Scenario.fire_at
                   (DateAt 1893456000000) "2030-01-01T00:00:00Z" "https://example.com/hook"
                   scenario_parameters eq_refl eq_refl eq_refl eq_refl eq_refl).
    vm_compute. reflexivity.
  - exact (proj2 (proj2 (Hnames _ _ scenario_is_sent_when_deployed))).
Defined.

(** The permissions of the deployment cover the command of the scenario. *)
Lemma scenario_command_is_permitted :
  deployed Scenario.tokens (Scenario.lambda_world Scenario.new_years_eve) /\
  In (CallSend (Scenario.registered Scenario.new_years_eve))
     (calls (Setter.handler (Scenario.lambda_world Scenario.new_years_eve)
                            Scenario.posted)) /\
  Stack.grants
    (Stack.role_statements (Stack.schedulerExecutionRole (Stack.constructor Scenario.tokens)))
    "lambda:InvokeFunction"
    "arn:aws:lambda:eu-west-1:123456789012:function:WebhookWorker" /\
  Stack.grants
    (Stack.setterLambda_rolePolicy (Stack.constructor Scenario.tokens))
    "iam:PassRole" "arn:aws:iam::123456789012:role/SchedulerExecutionRole".
Proof.
  split; [apply scenario_is_deployed|].
  split; [exact scenario_is_sent_when_deployed|].
  destruct (stack_permissions_cover_the_command Scenario.tokens _ _ _
              (scenario_is_deployed Scenario.new_years_eve) scenario_is_sent_when_deployed)
    as (Hinvoke & Hpass & _).
  split; [exact Hinvoke|exact Hpass].
Defined.

(** A direct invocation has no [body]: the parse throws, the event has the
    three parameters of the scenario, and the response is the 200 that the
    same request gets through the Function URL. *)
Lemma direct_invocation_falls_back :
  Setter.parse_body Scenario.direct = Throw (Node.SyntaxError "Unexpected token in JSON") /\
  parameters Scenario.direct Scenario.hook Scenario.payload Scenario.fire_at /\
  Setter.handler (Scenario.world Scenario.new_years_eve) Scenario.posted
    = Setter.handler (Scenario.world Scenario.new_years_eve) Scenario.direct /\
  calls (Setter.handler (Scenario.world Scenario.new_years_eve) Scenario.direct)
    = [CallSend (Scenario.registered Scenario.new_years_eve)] /\
  status_of (Setter.handler (Scenario.world Scenario.new_years_eve) Scenario.direct)
    = Some 200.
Proof.
  assert (Hparse : Setter.parse_body Scenario.direct
                   = Throw (Node.SyntaxError "Unexpected token in JSON"))
    by reflexivity.
  assert (Hp : parameters Scenario.direct Scenario.hook Scenario.payload Scenario.fire_at)
    by (repeat split).
  destruct (body_parse_failure_falls_back_to_event
              (Scenario.world Scenario.new_years_eve) _ _ Hparse)
    as (_ & Hwrapped & Hevent).
  destruct (Hevent _ _ _ Hp) as (_ & _ & Hgo).
  destruct (Hgo "2030-01-01T00:00:00Z" "https://example.com/hook" eq_refl scenario_ready)
    as (Hrun & _ & H200).
  split; [exact Hparse|]. split; [exact Hp|].
  split; [exact (proj1 (Hwrapped Scenario.posted eq_refl))|].
  split; [rewrite Hrun; reflexivity|].
  eapply H200; reflexivity.
Defined.
